(** * dffml_model_xgboost.xdgregressor: the XGBoost regressor adapter

    A shallow embedding of [XDGRegressorModel] (model/xgboost/
    dffml_model_xgboost/xdgregressor.py) and the proofs of its contract.

    The adapter is glue between three libraries that are not part of it:
    the host framework (records, data sources), pandas/xgboost/sklearn
    (frames, the regressor, the R2 score) and joblib (the saved blob).
    The libraries are an interface ([Libraries]); the adapter's methods are
    programs in a state-and-exception monad over the adapter's mutable
    attribute, the record objects, the file system and a log of every call
    that leaves the adapter. *)

From Stdlib Require Import PrimFloat.
From stdpp Require Import gmap strings list functions.

Set Default Proof Using "Type".
Open Scope string_scope.
Open Scope list_scope.

(** ** Python values held by records *)

Inductive scalar :=
| SInt (z : Z)
| SFloat (f : float)
| SStr (s : string).

(** A feature value is a scalar or a sequence of values. *)
#[warnings="-register-all"]
Inductive value :=
| Scalar (s : scalar)
| Vector (xs : list value).

(** [numpy.isscalar]. *)
Definition isscalar (v : value) : bool :=
  match v with Scalar _ => true | Vector _ => false end.

(** The elements visited when a sequence value is iterated. *)
Definition elements (v : value) : list value :=
  match v with Scalar _ => [] | Vector xs => xs end.

(** [float(x)] on a numpy float32: the double of the same numeric value.
    Array elements are represented by that double already. *)
Definition py_float (x : float) : float := x.

(** [float("nan")]. *)
Definition float_nan : float := nan.

(** ** Host-framework records *)

Record RecordPrediction := {
  rp_value : float;
  rp_confidence : float
}.

Module Record.

Record t := {
  key : string;
  data_features : gmap string value;
  data_prediction : gmap string RecordPrediction
}.

(** Modelled from the spec: [Record.features(names)] is host-framework
    code outside this package. A record exposes "a mapping from feature
    name to scalar-or-vector value"; the row of a record is built "in the
    order features were configured", reading "the record's value for that
    feature". The result is the ordered mapping of the requested names the
    record has a value for. *)
Definition features (r : t) (names : list string) : list (string * value) :=
  omap (λ n, (λ v, (n, v)) <$> data_features r !! n) names.

(** [dict.values()]. *)
Definition values (d : list (string * value)) : list value := d.*2.

(** Modelled from the spec: [Record.feature(name)], the record's value for
    one feature name; a name the mapping lacks has no value. *)
Definition feature (r : t) (n : string) : option value :=
  data_features r !! n.

(** Modelled from the spec: [Record.predicted(target, value, confidence)]
    "attach[es] a named prediction result plus a confidence/error
    placeholder" to the record. *)
Definition predicted (r : t) (target : string) (v c : float) : t :=
  {| key := key r;
     data_features := data_features r;
     data_prediction :=
       <[target := {| rp_value := v; rp_confidence := c |}]>
         (data_prediction r) |}.

(** The record has a value for every one of [names]. *)
Definition has_features (r : t) (names : list string) : bool :=
  forallb (λ n, bool_decide (is_Some (data_features r !! n))) names.

End Record.

(** ** Configuration *)

Record Feature := { name : string }.

(** [Features.names()]. *)
Definition names (fs : list Feature) : list string := name <$> fs.

Module Config.
Record t := {
  directory : string;
  features : list Feature;
  predict : Feature;
  learning_rate : float;
  n_estimators : Z
}.
End Config.

(** ** The wrapped libraries *)

Record DataFrame (A : Type) := pd_DataFrame { frame_data : list A }.
Arguments pd_DataFrame {A} _.
Arguments frame_data {A} _.

Record XGBParams := {
  xgb_n_estimators : Z;
  xgb_learning_rate : float;
  xgb_max_depth : Z;
  xgb_subsample : float
}.

(** [pathlib.Path(directory, file)]: the directory and the file name. *)
Definition Path : Type := string * string.

Inductive exn :=
| ModelNotTrained (msg : string)
| FeatureShapeError
| KeyError (k : string)
| AttributeError (msg : string)
| FileNotFoundError (p : Path)
| LibraryError (msg : string).

Inductive result (A : Type) :=
| Ok (a : A)
| Raise (e : exn).
Arguments Ok {A} _.
Arguments Raise {A} _.

(** What a library call does: it returns, or it throws an exception of the
    library's own. *)
Inductive outcome (A : Type) :=
| Returns (a : A)
| Throws (msg : string).
Arguments Returns {A} _.
Arguments Throws {A} _.

(** A library exception propagates unchanged. *)
Definition of_outcome {A} (o : outcome A) : result A :=
  match o with
  | Returns a => Ok a
  | Throws msg => Raise (LibraryError msg)
  end.

(** The numeric black boxes, reached only through their call contract:
    fit(X, y), predict(X) and r2_score(y_true, y_pred). *)
Class Libraries := {
  Booster : Type;
  xgb_fit : XGBParams → DataFrame (list value) → DataFrame value →
            outcome Booster;
  xgb_predict : XGBParams → option Booster → DataFrame (list value) →
                outcome (list float);
  r2_score : list value → list float → outcome float
}.

Section Adapter.
Context `{Libraries}.

(** The object [xgb.XGBRegressor(...)] returns: its hyperparameters and,
    once [fit] has succeeded on it, the fitted booster. *)
Record XGBRegressor := {
  params : XGBParams;
  booster : option Booster
}.

(** The content of a file: the pickle of what [self.saved] held when it was
    dumped, or bytes that joblib cannot load. *)
Inductive blob :=
| Pickle (o : option XGBRegressor)
| Corrupt.

(** Every call that leaves the adapter, in program order. *)
Inductive event :=
| with_features_call (names : list string)
| XGBRegressor_call (p : XGBParams)
| fit_call (p : XGBParams) (x : DataFrame (list value)) (y : DataFrame value)
| predict_call (m : XGBRegressor) (x : DataFrame (list value))
| r2_score_call (y_true : list value) (y_pred : list float)
| print_call (x : float)
| load_call (p : Path)
| dump_call (o : option XGBRegressor) (p : Path)
| predicted_call (record : nat) (target : string) (v c : float)
| yield_record (record : nat).

(** The mutable state: the adapter's [self.saved], the record objects (by
    address: a data source holds references, and [predict] updates the
    objects in place), the file system, and the call log. *)
Record State := {
  saved : option XGBRegressor;
  heap : nat → Record.t;
  files : gmap Path blob;
  dirs : gset string;
  trace : list event
}.

(** The attributes [__init__] sets once and nothing assigns again. *)
Record XDGRegressorModel := {
  config : Config.t;
  features : list string;
  saved_filepath : Path
}.

(** A data source: the records it holds, in iteration order. *)
Definition Sources : Type := list nat.

(** *** State and exception monad *)

Definition M (A : Type) : Type := State → result A * State.

#[global] Instance M_ret : MRet M := λ A a st, (Ok a, st).
#[global] Instance M_bind : MBind M := λ A B f m st,
  match m st with
  | (Ok a, st') => f a st'
  | (Raise e, st') => (Raise e, st')
  end.

Definition raise {A} (e : exn) : M A := λ st, (Raise e, st).
Definition get : M State := λ st, (Ok st, st).
Definition put (st : State) : M unit := λ _, (Ok tt, st).

Definition set_saved (o : option XGBRegressor) (st : State) : State :=
  {| saved := o; heap := heap st; files := files st; dirs := dirs st;
     trace := trace st |}.
Definition set_heap (h : nat → Record.t) (st : State) : State :=
  {| saved := saved st; heap := h; files := files st; dirs := dirs st;
     trace := trace st |}.
Definition set_files (f : gmap Path blob) (st : State) : State :=
  {| saved := saved st; heap := heap st; files := f; dirs := dirs st;
     trace := trace st |}.
Definition set_trace (t : list event) (st : State) : State :=
  {| saved := saved st; heap := heap st; files := files st; dirs := dirs st;
     trace := t |}.

Definition modify (f : State → State) : M unit := λ st, (Ok tt, f st).
Definition log (e : event) : M unit :=
  modify (λ st, set_trace (trace st ++ [e]) st).
Definition lift {A} (o : outcome A) : M A := λ st, (of_outcome o, st).

(** [for x in xs: acc = body(acc, x)]. *)
Fixpoint for_each {A B} (xs : list A) (body : B → A → M B) (acc : B) : M B :=
  match xs with
  | [] => mret acc
  | x :: xs' => acc' ← body acc x; for_each xs' body acc'
  end.

(** *** Calls into the host framework and the libraries *)

(** Modelled from the spec: [Sources.with_features(names)] is host-framework
    code outside this package; it yields, in iteration order, the "records
    exposing at least" the requested features. *)
Definition with_features (sources : Sources) (ns : list string)
  : M (list nat) :=
  log (with_features_call ns);;
  st ← get;
  mret (filter (λ r, Is_true (Record.has_features (heap st r) ns)) sources).

(** Reading the object a reference points to. *)
Definition deref (record : nat) : M Record.t :=
  st ← get; mret (heap st record).

Definition record_feature (record : nat) (n : string) : M value :=
  r ← deref record;
  match Record.feature r n with
  | Some v => mret v
  | None => raise (KeyError n)
  end.

Definition record_predicted (record : nat) (target : string) (v c : float)
  : M unit :=
  log (predicted_call record target v c);;
  modify (λ st,
    set_heap (<[record := Record.predicted (heap st record) target v c]>
                (heap st)) st).

(** [xgb.XGBRegressor(...)]: a new, unfitted regressor. *)
Definition new_XGBRegressor (p : XGBParams) : M XGBRegressor :=
  log (XGBRegressor_call p);;
  mret {| params := p; booster := None |}.

(** [self.saved.fit(x, y)]: fits the object [self.saved] refers to, in
    place. A failed fit raises and leaves the object unfitted. *)
Definition saved_fit (x : DataFrame (list value)) (y : DataFrame value)
  : M unit :=
  st ← get;
  match saved st with
  | None => raise (AttributeError "'NoneType' object has no attribute 'fit'")
  | Some m =>
      log (fit_call (params m) x y);;
      b ← lift (xgb_fit (params m) x y);
      modify (set_saved (Some {| params := params m; booster := Some b |}))
  end.

(** [self.saved.predict(x)]. *)
Definition saved_predict (x : DataFrame (list value)) : M (list float) :=
  st ← get;
  match saved st with
  | None => raise (AttributeError "'NoneType' object has no attribute 'predict'")
  | Some m =>
      log (predict_call m x);;
      lift (xgb_predict (params m) (booster m) x)
  end.

Definition call_r2_score (y_true : list value) (y_pred : list float)
  : M float :=
  log (r2_score_call y_true y_pred);;
  lift (r2_score y_true y_pred).

Definition print (x : float) : M unit := log (print_call x).

(** [pathlib.Path.is_file]. *)
Definition is_file (p : Path) : M bool :=
  st ← get; mret (bool_decide (is_Some (files st !! p))).

(** [joblib.load]. *)
Definition joblib_load (p : Path) : M (option XGBRegressor) :=
  log (load_call p);;
  st ← get;
  match files st !! p with
  | None => raise (FileNotFoundError p)
  | Some (Pickle o) => mret o
  | Some Corrupt => raise (LibraryError "cannot unpickle")
  end.

(** [joblib.dump(obj, path)]: opens the file for writing, which needs the
    directory to exist, and replaces its content. *)
Definition joblib_dump (o : option XGBRegressor) (p : Path) : M unit :=
  log (dump_call o p);;
  st ← get;
  if bool_decide (p.1 ∈ dirs st)
  then modify (λ st, set_files (<[p := Pickle o]> (files st)) st)
  else raise (FileNotFoundError p).

(** *** The adapter's methods *)

(** Truth value of [self.saved]: [None] is false, a regressor object is
    true (the class defines neither [__bool__] nor [__len__]). *)
Definition truthy (o : option XGBRegressor) : bool :=
  match o with Some _ => true | None => false end.

(** [self.parent.config.predict.name]; the parent of a model is the model
    itself. *)
Definition target (self : XDGRegressorModel) : string :=
  name (Config.predict (config self)).

(** [__init__]. The call [super().__init__(config)] is host-framework code.
    Modelled from the spec: it stores the configuration and the names of the
    configured input features, in configured order, as [self.features]. *)
Definition __init__ (cfg : Config.t) : M XDGRegressorModel :=
  modify (set_saved None);;
  let saved_filepath := (Config.directory cfg, "model.joblib") in
  b ← is_file saved_filepath;
  (if b : bool
   then o ← joblib_load saved_filepath; modify (set_saved o)
   else mret tt);;
  mret {| config := cfg;
          features := names (Config.features cfg);
          saved_filepath := saved_filepath |}.

(** One step of the inner loop: [record_data.extend([feature] if
    np.isscalar(feature) else feature)]. *)
Definition extend (record_data : list value) (feature : value) : list value :=
  record_data ++ (if isscalar feature then [feature] else elements feature).

(** The inner loop [for feature in record.features(self.features).values()]
    starting from [record_data = []]; the same text in [train], [accuracy]
    and [predict]. *)
Definition record_data_loop (self : XDGRegressorModel) (r : Record.t)
  : list value :=
  fold_left extend (Record.values (Record.features r (features self))) [].

(** The loop of [train] over the records the source yields, filling
    [xdata] and [ydata]. *)
Definition train_data_loop (self : XDGRegressorModel) (records : list nat)
  : M (list (list value) * list value) :=
  for_each records (λ '(xdata, ydata) record,
      r ← deref record;
      let record_data := record_data_loop self r in
      y ← record_feature record (target self);
      mret (xdata ++ [record_data], ydata ++ [y])) ([], []).

(** The hyperparameters [train] passes to [xgb.XGBRegressor];
    [0x1.999999999999ap-1] is the double the literal [0.8] denotes. *)
Definition train_params (self : XDGRegressorModel) : XGBParams :=
  {| xgb_n_estimators := Config.n_estimators (config self);
     xgb_learning_rate := Config.learning_rate (config self);
     xgb_max_depth := 2;
     xgb_subsample := 0x1.999999999999ap-1 |}.

Definition train (self : XDGRegressorModel) (sources : Sources) : M unit :=
  records ← with_features sources (features self ++ [target self]);
  '(xdata, ydata) ← train_data_loop self records;
  let x_data := pd_DataFrame xdata in
  let y_data := pd_DataFrame ydata in
  m ← new_XGBRegressor (train_params self);
  modify (set_saved (Some m));;
  saved_fit x_data y_data;;
  st ← get;
  joblib_dump (saved st) (saved_filepath self).

Definition getInputData (self : XDGRegressorModel) (sources : Sources)
  : M (list nat) :=
  records ← with_features sources (names (Config.features (config self)));
  for_each records (λ saved_records record,
      mret (saved_records ++ [record])) [].

(** The loop [for record in input_data] that fills [xdata]; the same text
    in [accuracy] and [predict]. *)
Definition xdata_loop (self : XDGRegressorModel) (input_data : list nat)
  : M (list (list value)) :=
  for_each input_data (λ xdata record,
      r ← deref record;
      mret (xdata ++ [record_data_loop self r])) [].

(** The comprehension [[input_datum.feature(self.config.predict.name) for
    input_datum in input_data]]. *)
Definition actuals_loop (self : XDGRegressorModel) (input_data : list nat)
  : M (list value) :=
  for_each input_data (λ actuals input_datum,
      v ← record_feature input_datum (name (Config.predict (config self)));
      mret (actuals ++ [v])) [].

Definition accuracy (self : XDGRegressorModel) (sources : Sources) : M float :=
  st ← get;
  if negb (truthy (saved st))
  then raise (ModelNotTrained "Train the model before assessing accuracy")
  else
    input_data ← getInputData self sources;
    xdata ← xdata_loop self input_data;
    predictions ← saved_predict (pd_DataFrame xdata);
    actuals ← actuals_loop self input_data;
    shown ← call_r2_score actuals predictions;
    print shown;;
    call_r2_score actuals predictions.

(** [predict] is a generator. [predict_start] is its body up to the loop
    over [zip(input_data, predictions)]; it runs when the consumer asks for
    the first record. The result is the suspended loop: the pairs still to
    be visited. *)
Definition predict_start (self : XDGRegressorModel) (sources : Sources)
  : M (list (nat * float)) :=
  st ← get;
  if negb (truthy (saved st))
  then raise (ModelNotTrained "Train the model first before getting preictions")
  else
    input_data ← getInputData self sources;
    xdata ← xdata_loop self input_data;
    predictions ← saved_predict (pd_DataFrame xdata);
    mret (zip input_data predictions).

(** One iteration of the loop, up to and including its [yield]. *)
Definition predict_step (self : XDGRegressorModel) (record : nat)
    (prediction : float) : M nat :=
  record_predicted record (name (Config.predict (config self)))
                   (py_float prediction) float_nan;;
  log (yield_record record);;
  mret record.

(** The consumer's [async for record in model.predict(sources)], run to the
    end of the generator: for every yield, the reference received and the
    record as the consumer finds it at that moment. *)
Fixpoint predict_resume (self : XDGRegressorModel) (frame : list (nat * float))
  : M (list (nat * Record.t)) :=
  match frame with
  | [] => mret []
  | (record, prediction) :: frame' =>
      yielded ← predict_step self record prediction;
      seen ← deref yielded;
      rest ← predict_resume self frame';
      mret ((yielded, seen) :: rest)
  end.

Definition predict (self : XDGRegressorModel) (sources : Sources)
  : M (list (nat * Record.t)) :=
  frame ← predict_start self sources;
  predict_resume self frame.

(** *** The table build in the specification's words *)

(** What one feature contributes to a row: a scalar one element, a
    vector-valued feature all its elements in order. *)
Definition contribution (v : value) : list value :=
  match v with
  | Scalar s => [Scalar s]
  | Vector xs => xs
  end.

(** The row of a record: the contributions of the record's values for
    [feature_names], in that order. *)
Definition row_of (feature_names : list string) (r : Record.t) : list value :=
  n ← feature_names;
  match Record.data_features r !! n with
  | Some v => contribution v
  | None => []
  end.

(** [rows_from(records, feature_names)]: one row per record, in the order
    of the records. *)
Definition rows_from (records : list Record.t) (feature_names : list string)
  : list (list value) :=
  row_of feature_names <$> records.

(** The target column: each record's value for the target feature, in the
    order of the records. Reading stops with [KeyError] at the first record
    that has no such value. *)
Fixpoint target_column (h : nat → Record.t) (t : string) (records : list nat)
  : result (list value) :=
  match records with
  | [] => Ok []
  | r :: rs =>
      match Record.data_features (h r) !! t with
      | None => Raise (KeyError t)
      | Some v =>
          match target_column h t rs with
          | Ok vs => Ok (v :: vs)
          | Raise e => Raise e
          end
      end
  end.

(** The target values of the records that have one. *)
Definition target_values (h : nat → Record.t) (t : string) (records : list nat)
  : list value :=
  omap (λ r, Record.data_features (h r) !! t) records.

(** The records a source yields for the requested names. *)
Definition yielded (st : State) (sources : Sources) (ns : list string)
  : list nat :=
  filter (λ r, Is_true (Record.has_features (heap st r) ns)) sources.

(** *** Reference behaviour of the methods *)

(** The state after more calls have been logged. *)
Definition logged (st : State) (evs : list event) : State :=
  set_trace (trace st ++ evs) st.

(** The records [train] reads, the table and the target column it builds. *)
Definition train_records (self : XDGRegressorModel) (st : State)
    (sources : Sources) : list nat :=
  yielded st sources (features self ++ [target self]).
Definition train_x (self : XDGRegressorModel) (st : State)
    (sources : Sources) : DataFrame (list value) :=
  pd_DataFrame
    (rows_from (heap st <$> train_records self st sources) (features self)).
Definition train_y (self : XDGRegressorModel) (st : State)
    (sources : Sources) : DataFrame value :=
  pd_DataFrame (target_values (heap st) (target self)
                              (train_records self st sources)).

(** The calls [train] has made when [fit] returns or raises. *)
Definition train_calls (self : XDGRegressorModel) (st : State)
    (sources : Sources) : list event :=
  [with_features_call (features self ++ [target self]);
   XGBRegressor_call (train_params self);
   fit_call (train_params self) (train_x self st sources)
            (train_y self st sources)].

Definition unfitted (self : XDGRegressorModel) : XGBRegressor :=
  {| params := train_params self; booster := None |}.
Definition fitted_with (self : XDGRegressorModel) (b : Booster)
  : XGBRegressor :=
  {| params := train_params self; booster := Some b |}.

(** The records [accuracy] and [predict] read and the table they build. *)
Definition input_records (self : XDGRegressorModel) (st : State)
    (sources : Sources) : list nat :=
  yielded st sources (names (Config.features (config self))).
Definition input_x (self : XDGRegressorModel) (st : State)
    (sources : Sources) : DataFrame (list value) :=
  pd_DataFrame
    (rows_from (heap st <$> input_records self st sources) (features self)).

(** The calls [accuracy] and [predict] have made when the regressor's
    [predict] returns or raises. *)
Definition input_calls (self : XDGRegressorModel) (m : XGBRegressor)
    (st : State) (sources : Sources) : list event :=
  [with_features_call (names (Config.features (config self)));
   predict_call m (input_x self st sources)].

(** [accuracy] in the specification's words: the predictions of the fitted
    model for the feature table, the true target values of the same
    records, and the coefficient of determination between the two. *)
Definition accuracy_result (self : XDGRegressorModel) (m : XGBRegressor)
    (st : State) (sources : Sources) : result float :=
  match xgb_predict (params m) (booster m) (input_x self st sources) with
  | Throws msg => Raise (LibraryError msg)
  | Returns predictions =>
      match target_column (heap st) (target self)
                          (input_records self st sources) with
      | Raise e => Raise e
      | Ok actuals => of_outcome (r2_score actuals predictions)
      end
  end.

(** Calls that change nothing: they read records, ask the fitted model or
    the score function, or print. *)
Definition reads_only (e : event) : bool :=
  match e with
  | with_features_call _ | predict_call _ _ | r2_score_call _ _
  | print_call _ => true
  | _ => false
  end.

(** One resumption of the generator, seen from outside: the record object
    gets the prediction attached under the target's name. *)
Definition attach (t : string) (h : nat → Record.t) (rp : nat * float)
  : nat → Record.t :=
  <[rp.1 := Record.predicted (h rp.1) t (py_float rp.2) float_nan]> h.

(** The record objects once the generator is exhausted. *)
Definition heap_after (t : string) (h : nat → Record.t)
    (frame : list (nat * float)) : nat → Record.t :=
  fold_left (attach t) frame h.

(** What the consumer receives: per pair, the reference and the record as
    it is right after that pair's step. *)
Fixpoint snapshots (t : string) (h : nat → Record.t)
    (frame : list (nat * float)) : list (nat * Record.t) :=
  match frame with
  | [] => []
  | rp :: frame' =>
      let h' := attach t h rp in (rp.1, h' rp.1) :: snapshots t h' frame'
  end.

(** The calls of the generator's loop. *)
Definition yield_calls (t : string) (frame : list (nat * float)) : list event :=
  rp ← frame;
  [predicted_call rp.1 t (py_float rp.2) float_nan; yield_record rp.1].

(** [h] differs from [h0] at most by predictions attached under [t]. *)
Definition overwritten (t : string) (h0 h : nat → Record.t) : Prop :=
  ∀ a, h a = h0 a ∨ ∃ v c, h a = Record.predicted (h0 a) t v c.

(** The path of the saved model and the attributes [__init__] sets. *)
Definition model_path (cfg : Config.t) : Path :=
  (Config.directory cfg, "model.joblib").
Definition self_of (cfg : Config.t) : XDGRegressorModel :=
  {| config := cfg;
     features := names (Config.features cfg);
     saved_filepath := model_path cfg |}.

(** *** A consumer that stops early *)

(** The consumer asks the suspended generator for at most [k] more records
    and then abandons it ([break] in its [async for]): the loop body of
    [predict] runs once per record handed over, never ahead of a request. *)
Fixpoint predict_requests (self : XDGRegressorModel) (k : nat)
    (frame : list (nat * float)) : M (list (nat * Record.t)) :=
  match k, frame with
  | S k', (record, prediction) :: frame' =>
      received ← predict_step self record prediction;
      seen ← deref received;
      rest ← predict_requests self k' frame';
      mret ((received, seen) :: rest)
  | _, _ => mret []
  end.

(** The prediction of the last pair of [frame] that refers to record [a]. *)
Fixpoint last_prediction (a : nat) (frame : list (nat * float))
  : option float :=
  match frame with
  | [] => None
  | rp :: frame' =>
      match last_prediction a frame' with
      | Some p => Some p
      | None => if decide (rp.1 = a) then Some rp.2 else None
      end
  end.

(** How many elements a feature value adds to a row. *)
Definition width (v : value) : nat :=
  if isscalar v then 1 else length (elements v).

End Adapter.

(** ** A stand-in for the libraries, to run the adapter on examples *)

Module Demo.

(** The booster remembers how many rows it was fitted on. [fit] rejects an
    empty table; [predict] needs a fitted regressor and answers [8.5] for
    every row; the score is [1.0] when there is one true value per
    prediction. *)
#[global] Instance libraries : Libraries := {|
  Booster := nat;
  xgb_fit _ x _ :=
    match frame_data x with
    | [] => Throws "empty training table"
    | rows => Returns (length rows)
    end;
  xgb_predict _ b x :=
    match b with
    | None => Throws "need to call fit beforehand"
    | Some _ => Returns ((λ _, 8.5%float) <$> frame_data x)
    end;
  r2_score y_true y_pred :=
    if bool_decide (length y_true = length y_pred)
    then Returns 1%float
    else Throws "inconsistent numbers of samples"
|}.

Definition num (z : Z) : value := Scalar (SInt z).

Definition mk_record (k : string) (fs : list (string * value)) : Record.t :=
  {| Record.key := k;
     Record.data_features := list_to_map fs;
     Record.data_prediction := ∅ |}.

(** Three record objects, at addresses 0, 1 and 2. The second holds a
    vector for [Feature2], so its row is longer than the others'. *)
Definition records : nat → Record.t := λ a,
  match a with
  | 0 => mk_record "x0" [("Feature1", num 1); ("Feature2", num 2);
                        ("Target", num 8)]
  | 1 => mk_record "x1" [("Feature1", num 3);
                        ("Feature2", Vector [num 4; num 5]);
                        ("Target", num 18)]
  | 2 => mk_record "x2" [("Feature1", num 6); ("Feature2", num 7);
                        ("Target", num 33)]
  | _ => mk_record "" []
  end.

Definition cfg : Config.t :=
  {| Config.directory := "/tmp/model";
     Config.features := [{| name := "Feature1" |}; {| name := "Feature2" |}];
     Config.predict := {| name := "Target" |};
     Config.learning_rate := 0x1.999999999999ap-4;
     Config.n_estimators := 1000 |}.

Definition self : XDGRegressorModel :=
  {| config := cfg;
     features := ["Feature1"; "Feature2"];
     saved_filepath := ("/tmp/model", "model.joblib") |}.

(** No saved model, the directory exists, nothing logged yet. *)
Definition st0 : State :=
  {| saved := None; heap := records; files := ∅;
     dirs := {["/tmp/model"]}; trace := [] |}.

Definition fitted : XGBRegressor :=
  {| params := train_params self; booster := Some 3 |}.

(** A trained adapter whose model is also on disk. *)
Definition st1 : State :=
  {| saved := Some fitted; heap := records;
     files := {[saved_filepath self := Pickle (Some fitted)]};
     dirs := {["/tmp/model"]}; trace := [] |}.

End Demo.

(** ** Further examples *)

Module Unlabelled.

(** Two record objects with both input features; the one at address 1 has
    no value for the target. *)
Definition records : nat → Record.t := λ a,
  match a with
  | 0 => Demo.mk_record "y0" [("Feature1", Demo.num 1);
                              ("Feature2", Demo.num 2);
                              ("Target", Demo.num 8)]
  | 1 => Demo.mk_record "y1" [("Feature1", Demo.num 3);
                              ("Feature2", Demo.num 4)]
  | _ => Demo.mk_record "" []
  end.

(** A trained adapter over these records. *)
Definition st : State :=
  {| saved := Some Demo.fitted; heap := records; files := ∅;
     dirs := {["/tmp/model"]}; trace := [] |}.

End Unlabelled.

Module Short.

(** A regressor that answers with a single prediction whatever the number
    of rows. Not an instance: it is passed by name where it is used. *)
Definition libraries : Libraries := {|
  Booster := nat;
  xgb_fit _ x _ := Returns (length (frame_data x));
  xgb_predict _ _ _ := Returns [2.5%float];
  r2_score _ _ := Returns 0%float
|}.

Definition fitted : @XGBRegressor libraries :=
  @Build_XGBRegressor libraries (train_params Demo.self) (Some 3).

Definition st : @State libraries :=
  @Build_State libraries (Some fitted) Demo.records ∅ ∅ [].

End Short.

Module Malformed.

(** Two record objects with the input features and the target; the one at
    address 1 holds a string where a number is expected. *)
Definition records : nat → Record.t := λ a,
  match a with
  | 0 => Demo.mk_record "z0" [("Feature1", Demo.num 1);
                              ("Feature2", Demo.num 2);
                              ("Target", Demo.num 8)]
  | 1 => Demo.mk_record "z1" [("Feature1", Demo.num 3);
                              ("Feature2", Scalar (SStr "n/a"));
                              ("Target", Demo.num 18)]
  | _ => Demo.mk_record "" []
  end.

Definition numeric (v : value) : bool :=
  match v with
  | Scalar (SInt _) | Scalar (SFloat _) => true
  | _ => false
  end.

(** A regressor whose [fit] rejects a table with a cell that is not a
    number. Not an instance: it is passed by name where it is used. *)
Definition libraries : Libraries := {|
  Booster := nat;
  xgb_fit _ x _ :=
    if forallb (forallb numeric) (frame_data x)
    then Returns (length (frame_data x))
    else Throws "DataFrame.dtypes for data must be int, float or bool";
  xgb_predict _ b x :=
    match b with
    | None => Throws "need to call fit beforehand"
    | Some _ => Returns ((λ _, 8.5%float) <$> frame_data x)
    end;
  r2_score _ _ := Returns 1%float
|}.

Definition fitted : @XGBRegressor libraries :=
  @Build_XGBRegressor libraries (train_params Demo.self) (Some 3).

(** A trained adapter over these records, its model on disk. *)
Definition st : @State libraries :=
  @Build_State libraries (Some fitted) records
    {[saved_filepath Demo.self := @Pickle libraries (Some fitted)]}
    {["/tmp/model"]} [].

End Malformed.
(** * Proofs *)

Section Proofs.
Context `{Libraries}.

(** ** Running monadic programs *)

(** Unfold the monad's plumbing and the one-line library calls; loops
    ([for_each]) stay folded and are rewritten with their lemmas. *)
Ltac run :=
  cbv [mbind M_bind mret M_ret get put raise lift of_outcome log modify
       deref record_feature with_features saved_predict saved_fit
       call_r2_score print new_XGBRegressor is_file joblib_load joblib_dump
       record_predicted].

Lemma logged_nil st : logged st [] = st.
Proof. destruct st; unfold logged, set_trace; simpl. by rewrite app_nil_r. Qed.

Lemma logged_logged st evs evs' :
  logged (logged st evs) evs' = logged st (evs ++ evs').
Proof. unfold logged, set_trace; simpl. by rewrite app_assoc. Qed.

(** ** The table build *)

Lemma extend_contribution record_data feature :
  extend record_data feature = record_data ++ contribution feature.
Proof. by destruct feature. Qed.

Lemma fold_extend vs record_data :
  fold_left extend vs record_data = record_data ++ (vs ≫= contribution).
Proof.
  revert record_data. induction vs as [|v vs IH]; intros record_data; simpl.
  - by rewrite app_nil_r.
  - rewrite IH, extend_contribution. by rewrite <- app_assoc.
Qed.

Lemma values_features_bind r ns :
  Record.values (Record.features r ns) ≫= contribution = row_of ns r.
Proof.
  unfold Record.values, Record.features, row_of.
  induction ns as [|n ns IH]; [done|]. simpl.
  destruct (Record.data_features r !! n) as [v|]; simpl;
    [f_equal|]; exact IH.
Qed.

(** The inner loop computes the row the specification describes. *)
Lemma record_data_loop_row_of self r :
  record_data_loop self r = row_of (features self) r.
Proof.
  unfold record_data_loop. rewrite fold_extend. apply values_features_bind.
Qed.

Lemma xdata_loop_acc self input_data acc st :
  for_each input_data (λ xdata record,
      r ← deref record;
      mret (xdata ++ [record_data_loop self r])) acc st
  = (Ok (acc ++ rows_from (heap st <$> input_data) (features self)), st).
Proof.
  revert acc. induction input_data as [|a l IH]; intros acc; simpl.
  - by rewrite app_nil_r.
  - run. rewrite IH. rewrite record_data_loop_row_of.
    unfold rows_from. simpl. by rewrite <- app_assoc.
Qed.

Lemma xdata_loop_rows self input_data st :
  xdata_loop self input_data st
  = (Ok (rows_from (heap st <$> input_data) (features self)), st).
Proof. unfold xdata_loop. by rewrite xdata_loop_acc. Qed.

Lemma append_loop_acc (l acc : list nat) st :
  for_each l (λ saved_records record, mret (saved_records ++ [record])) acc st
  = (Ok (acc ++ l), st).
Proof.
  revert acc. induction l as [|a l IH]; intros acc; simpl.
  - by rewrite app_nil_r.
  - run. rewrite IH. by rewrite <- app_assoc.
Qed.

Lemma getInputData_yielded self sources st :
  getInputData self sources st
  = (Ok (yielded st sources (names (Config.features (config self)))),
     logged st [with_features_call (names (Config.features (config self)))]).
Proof.
  unfold getInputData. run. cbv beta. by rewrite append_loop_acc.
Qed.

(** The loop that reads the true target values, from any accumulator. *)
Lemma target_loop_acc (t : string) input_data acc st :
  for_each input_data (λ actuals input_datum,
      v ← record_feature input_datum t;
      mret (actuals ++ [v])) acc st
  = (match target_column (heap st) t input_data with
     | Ok vs => Ok (acc ++ vs)
     | Raise e => Raise e
     end, st).
Proof.
  revert acc. induction input_data as [|a l IH]; intros acc; simpl.
  - by rewrite app_nil_r.
  - run. unfold Record.feature.
    destruct (Record.data_features (heap st a) !! t) as [v|]; [|done].
    rewrite IH. destruct (target_column (heap st) t l); [|done].
    by rewrite <- app_assoc.
Qed.

Lemma train_data_loop_acc self records xacc yacc st :
  for_each records (λ '(xdata, ydata) record,
      r ← deref record;
      let record_data := record_data_loop self r in
      y ← record_feature record (target self);
      mret (xdata ++ [record_data], ydata ++ [y])) (xacc, yacc) st
  = (match target_column (heap st) (target self) records with
     | Ok ys =>
         Ok (xacc ++ rows_from (heap st <$> records) (features self),
             yacc ++ ys)
     | Raise e => Raise e
     end, st).
Proof.
  revert xacc yacc.
  induction records as [|a l IH]; intros xacc yacc; simpl.
  - by rewrite !app_nil_r.
  - run. unfold Record.feature.
    destruct (Record.data_features (heap st a) !! target self) as [v|];
      [|done].
    rewrite IH. destruct (target_column (heap st) (target self) l); [|done].
    rewrite record_data_loop_row_of. unfold rows_from. simpl.
    by rewrite <- !app_assoc.
Qed.

Lemma actuals_loop_column self input_data st :
  actuals_loop self input_data st
  = (target_column (heap st) (target self) input_data, st).
Proof.
  unfold actuals_loop. rewrite target_loop_acc. unfold target.
  by destruct (target_column _ _ _).
Qed.

Lemma train_data_loop_column self records st :
  train_data_loop self records st
  = (match target_column (heap st) (target self) records with
     | Ok ys => Ok (rows_from (heap st <$> records) (features self), ys)
     | Raise e => Raise e
     end, st).
Proof. unfold train_data_loop. by rewrite train_data_loop_acc. Qed.

(** The only exception reading the target column raises is [KeyError]. *)
Lemma target_column_raises h (t : string) records e :
  target_column h t records = Raise e → e = KeyError t.
Proof.
  induction records as [|r rs IH]; simpl; [done|].
  destruct (Record.data_features (h r) !! t); [|congruence].
  destruct (target_column h t rs); [done|].
  intros [= <-]. by apply IH.
Qed.

(** Records that all have a target value give a full target column. *)
Lemma target_column_values h (t : string) records :
  Forall (λ r, is_Some (Record.data_features (h r) !! t)) records →
  target_column h t records = Ok (target_values h t records).
Proof.
  unfold target_values.
  induction 1 as [|r rs [v Hv] _ IH]; simpl; [done|].
  by rewrite Hv, IH.
Qed.

Lemma has_features_lookup r ns (n : string) :
  Is_true (Record.has_features r ns) → n ∈ ns →
  is_Some (Record.data_features r !! n).
Proof.
  unfold Record.has_features.
  rewrite forallb_True, list.Forall_forall.
  intros Hall Hn.
  specialize (Hall n Hn). by apply bool_decide_unpack in Hall.
Qed.

(** Every record the source yields to [train] has a target value. *)
Lemma yielded_has_target st sources ns (t : string) :
  t ∈ ns →
  Forall (λ r, is_Some (Record.data_features (heap st r) !! t))
         (yielded st sources ns).
Proof.
  intros Ht. apply list.Forall_forall. intros r Hr.
  apply list_elem_of_filter in Hr as [Hr _].
  by eapply has_features_lookup.
Qed.

(** ** What [train] does, step by step *)

Lemma train_run self sources st :
  train self sources st =
  match xgb_fit (train_params self) (train_x self st sources)
                (train_y self st sources) with
  | Throws msg =>
      (Raise (LibraryError msg),
       set_saved (Some (unfitted self)) (logged st (train_calls self st sources)))
  | Returns b =>
      let m := Some (fitted_with self b) in
      let st' :=
        set_saved m
          (logged st (train_calls self st sources
                      ++ [dump_call m (saved_filepath self)])) in
      if bool_decide ((saved_filepath self).1 ∈ dirs st)
      then (Ok (), set_files (<[saved_filepath self := Pickle m]> (files st)) st')
      else (Raise (FileNotFoundError (saved_filepath self)), st')
  end.
Proof.
  unfold train. run. rewrite train_data_loop_column.
  cbn [heap saved files dirs trace set_trace set_saved set_files].
  fold (yielded st sources (features self ++ [target self])).
  rewrite target_column_values by (apply yielded_has_target; set_solver).
  unfold train_x, train_y, train_records, train_calls, unfitted, fitted_with,
    logged.
  cbn [params].
  destruct (xgb_fit _ _ _) as [b|msg];
    cbn [of_outcome heap saved files dirs trace set_trace set_saved set_files].
  - destruct (bool_decide _); unfold set_files, set_saved, set_trace;
      cbn [heap saved files dirs trace]; by rewrite <- !app_assoc.
  - unfold set_files, set_saved, set_trace;
      cbn [heap saved files dirs trace]; by rewrite <- !app_assoc.
Qed.

(** ** What [accuracy] and [predict] do, step by step *)

Lemma accuracy_run self sources st m :
  saved st = Some m →
  accuracy self sources st =
  let evs := input_calls self m st sources in
  match xgb_predict (params m) (booster m) (input_x self st sources) with
  | Throws msg => (Raise (LibraryError msg), logged st evs)
  | Returns predictions =>
      match target_column (heap st) (target self)
                          (input_records self st sources) with
      | Raise e => (Raise e, logged st evs)
      | Ok actuals =>
          match r2_score actuals predictions with
          | Throws msg =>
              (Raise (LibraryError msg),
               logged st (evs ++ [r2_score_call actuals predictions]))
          | Returns s =>
              (Ok s, logged st (evs ++ [r2_score_call actuals predictions;
                                        print_call s;
                                        r2_score_call actuals predictions]))
          end
      end
  end.
Proof.
  intros Hsaved. unfold accuracy. run. rewrite Hsaved. cbn [truthy negb].
  rewrite getInputData_yielded, xdata_loop_rows.
  cbn [heap saved files dirs trace set_trace set_saved set_files logged].
  rewrite Hsaved. unfold input_calls, input_x, input_records.
  destruct (xgb_predict _ _ _) as [predictions|msg]; cbn [of_outcome].
  - rewrite actuals_loop_column.
    cbn [heap saved files dirs trace set_trace set_saved set_files logged].
    destruct (target_column _ _ _) as [actuals|e].
    + destruct (r2_score actuals predictions) as [s|msg] eqn:Hscore;
        cbn [of_outcome];
        unfold logged, set_trace; cbn [heap saved files dirs trace];
        by rewrite <- !app_assoc.
    + unfold logged, set_trace; cbn [heap saved files dirs trace];
        by rewrite <- !app_assoc.
  - unfold logged, set_trace; cbn [heap saved files dirs trace];
      by rewrite <- !app_assoc.
Qed.

(** The part of [predict] that runs before its first [yield]. *)
Lemma predict_start_run self sources st m :
  saved st = Some m →
  predict_start self sources st =
  (match xgb_predict (params m) (booster m) (input_x self st sources) with
   | Throws msg => Raise (LibraryError msg)
   | Returns predictions =>
       Ok (zip (input_records self st sources) predictions)
   end, logged st (input_calls self m st sources)).
Proof.
  intros Hsaved. unfold predict_start. run. rewrite Hsaved. cbn [truthy negb].
  rewrite getInputData_yielded, xdata_loop_rows.
  cbn [heap saved files dirs trace set_trace set_saved set_files logged].
  rewrite Hsaved. unfold input_calls, input_x, input_records.
  destruct (xgb_predict _ _ _) as [predictions|msg]; cbn [of_outcome];
    unfold logged, set_trace; cbn [heap saved files dirs trace];
    by rewrite <- !app_assoc.
Qed.

(** Without a model, both methods stop at their first statement. *)
Lemma accuracy_untrained self sources st :
  saved st = None →
  accuracy self sources st
  = (Raise (ModelNotTrained "Train the model before assessing accuracy"), st).
Proof. intros Hsaved. unfold accuracy. run. by rewrite Hsaved. Qed.

Lemma predict_start_untrained self sources st :
  saved st = None →
  predict_start self sources st
  = (Raise (ModelNotTrained
              "Train the model first before getting preictions"), st).
Proof. intros Hsaved. unfold predict_start. run. by rewrite Hsaved. Qed.

(** ** The generator's loop *)

Lemma predict_resume_run self frame st :
  predict_resume self frame st =
  (Ok (snapshots (target self) (heap st) frame),
   set_heap (heap_after (target self) (heap st) frame)
            (logged st (yield_calls (target self) frame))).
Proof.
  revert st. induction frame as [|[record prediction] frame IH]; intros st.
  - simpl. run. unfold set_heap, logged, set_trace. destruct st; simpl.
    by rewrite app_nil_r.
  - cbn [predict_resume]. unfold predict_step. run. rewrite IH.
    cbn [heap saved files dirs trace set_trace set_saved set_files set_heap
         logged snapshots heap_after fold_left fst snd].
    f_equal. unfold set_heap, logged, set_trace.
    cbn [heap saved files dirs trace]. f_equal.
    unfold yield_calls. simpl. by rewrite <- !app_assoc.
Qed.

Lemma predicted_twice r (t : string) v c v' c' :
  Record.predicted (Record.predicted r t v c) t v' c'
  = Record.predicted r t v' c'.
Proof.
  unfold Record.predicted. simpl. f_equal. apply insert_insert_eq.
Qed.

Lemma overwritten_refl (t : string) h : overwritten t h h.
Proof. intros a. by left. Qed.

Lemma overwritten_attach (t : string) h0 h rp :
  overwritten t h0 h → overwritten t h0 (attach t h rp).
Proof.
  intros Hh a. unfold attach. destruct (decide (rp.1 = a)) as [->|Hne].
  - rewrite fn_lookup_insert. right.
    destruct (Hh a) as [->|(v & c & ->)]; [by eauto|].
    rewrite predicted_twice. by eauto.
  - rewrite fn_lookup_insert_ne by done. apply Hh.
Qed.

Lemma attach_lookup (t : string) h0 h rp :
  overwritten t h0 h →
  attach t h rp rp.1 = Record.predicted (h0 rp.1) t (py_float rp.2) float_nan.
Proof.
  intros Hh. unfold attach. rewrite fn_lookup_insert.
  destruct (Hh rp.1) as [->|(v & c & ->)]; [done|]. apply predicted_twice.
Qed.

(** Every yielded record is the record as it was before the generator ran,
    with that step's prediction attached. *)
Lemma snapshots_predicted (t : string) h0 h frame :
  overwritten t h0 h →
  snapshots t h frame
  = (λ rp, (rp.1, Record.predicted (h0 rp.1) t (py_float rp.2) float_nan))
      <$> frame.
Proof.
  revert h. induction frame as [|rp frame IH]; intros h Hh; [done|].
  cbn [snapshots fmap list_fmap].
  rewrite (attach_lookup t h0) by done.
  f_equal. apply IH. by apply overwritten_attach.
Qed.

Lemma heap_after_overwritten (t : string) h0 h frame :
  overwritten t h0 h → overwritten t h0 (heap_after t h frame).
Proof.
  revert h. induction frame as [|rp frame IH]; intros h Hh; [done|].
  apply IH. by apply overwritten_attach.
Qed.

(** Records the generator does not visit stay as they are. *)
Lemma heap_after_other (t : string) h frame a :
  a ∉ frame.*1 → heap_after t h frame a = h a.
Proof.
  revert h. induction frame as [|rp frame IH]; intros h Ha; [done|].
  rewrite fmap_cons, not_elem_of_cons in Ha. destruct Ha as [Hne Ha].
  cbn [heap_after fold_left]. fold (heap_after t (attach t h rp) frame).
  rewrite IH by done. unfold attach.
  by apply fn_lookup_insert_ne.
Qed.

(** ** The claims *)

(** C1. An adapter whose [saved] is [None] (nothing was loaded and no
    [train] has run) answers [accuracy] and [predict] with
    [ModelNotTrained]. The state is returned as it was, call log included:
    the data source and the regressor are not reached. *)
Theorem untrained_model_raises self sources st :
  saved st = None →
  accuracy self sources st
  = (Raise (ModelNotTrained "Train the model before assessing accuracy"), st)
  ∧ predict self sources st
    = (Raise (ModelNotTrained
                "Train the model first before getting preictions"), st).
Proof.
  intros Hsaved. split; [by apply accuracy_untrained|].
  unfold predict. cbv [mbind M_bind].
  by rewrite predict_start_untrained.
Qed.

(** C8. [__init__] looks for [<directory>/model.joblib]. Without the file
    the adapter is constructed with [saved = None], no exception, and no
    call at all; with a loadable file [saved] is the object joblib
    deserializes. The only call construction can make is that [load]: no
    regressor is constructed or fitted. *)
Theorem init_loads_saved_model cfg st :
  __init__ cfg st =
  match files st !! model_path cfg with
  | None => (Ok (self_of cfg), set_saved None st)
  | Some (Pickle o) =>
      (Ok (self_of cfg), set_saved o (logged st [load_call (model_path cfg)]))
  | Some Corrupt =>
      (Raise (LibraryError "cannot unpickle"),
       set_saved None (logged st [load_call (model_path cfg)]))
  end.
Proof.
  unfold __init__. run.
  cbn [heap saved files dirs trace set_trace set_saved set_files].
  fold (model_path cfg).
  destruct (files st !! model_path cfg) as [[o|]|] eqn:Hfile;
    cbn [bool_decide decide_rel is_Some];
    [rewrite bool_decide_eq_true_2 by eauto ..
    |rewrite bool_decide_eq_false_2 by (by intros [? ?])];
    cbn [heap saved files dirs trace set_trace set_saved set_files];
    rewrite ?Hfile; reflexivity.
Qed.

(** C4. The table build makes one row per record, in the order of the
    records, in [accuracy] and [predict] ([xdata_loop]) as in [train]
    ([train_data_loop]). A row visits the configured features in configured
    order; a scalar value appends one element, a vector value appends all
    its elements in order (the last equation spells one step of this). *)
Theorem feature_table_one_row_per_record self records st :
  let table := rows_from (heap st <$> records) (features self) in
  xdata_loop self records st = (Ok table, st)
  ∧ train_data_loop self records st
    = (match target_column (heap st) (target self) records with
       | Ok ys => Ok (table, ys)
       | Raise e => Raise e
       end, st)
  ∧ length table = length records
  ∧ (∀ i, table !! i
          = (λ a, row_of (features self) (heap st a)) <$> records !! i)
  ∧ (∀ r n ns,
       row_of (n :: ns) r
       = match Record.data_features r !! n with
         | Some (Scalar x) => [Scalar x]
         | Some (Vector xs) => xs
         | None => []
         end ++ row_of ns r).
Proof.
  cbv zeta. split_and!.
  - apply xdata_loop_rows.
  - apply train_data_loop_column.
  - unfold rows_from. by rewrite !length_fmap.
  - intros i. unfold rows_from. rewrite !list_lookup_fmap.
    by destruct (records !! i).
  - intros r n ns. unfold row_of at 1. cbn [mbind list_bind].
    by destruct (Record.data_features r !! n) as [[x|xs]|].
Qed.

(** C9. The table depends on the records read and on the order of the
    feature names, and on nothing else: two builds, in any two states of
    the adapter and its environment, over the same records with the same
    feature names give the same table, and row [i] of it is the row of
    record [i]. [getInputData] keeps the source's order: what it returns is
    the source with the records lacking a feature left out. *)
Theorem table_build_deterministic self1 self2 records1 records2 st1 st2
    sources :
  features self1 = features self2 →
  heap st1 <$> records1 = heap st2 <$> records2 →
  ∃ table,
    xdata_loop self1 records1 st1 = (Ok table, st1)
    ∧ xdata_loop self2 records2 st2 = (Ok table, st2)
    ∧ (train_data_loop self1 records1 st1).1
      = match target_column (heap st1) (target self1) records1 with
        | Ok ys => Ok (table, ys)
        | Raise e => Raise e
        end
    ∧ (∀ i, table !! i
            = (λ a, row_of (features self1) (heap st1 a)) <$> records1 !! i)
    ∧ (getInputData self1 sources st1).1
      = Ok (input_records self1 st1 sources)
    ∧ input_records self1 st1 sources `sublist_of` sources.
Proof.
  intros Hfeatures Hrecords.
  exists (rows_from (heap st1 <$> records1) (features self1)). split_and!.
  - apply xdata_loop_rows.
  - rewrite xdata_loop_rows. by rewrite <- Hfeatures, <- Hrecords.
  - by rewrite train_data_loop_column.
  - intros i. unfold rows_from. rewrite !list_lookup_fmap.
    by destruct (records1 !! i).
  - by rewrite getInputData_yielded.
  - apply sublist_filter.
Qed.

(** C2. A [train] call that returns has constructed a new regressor with
    [n_estimators] and [learning_rate] from the configuration, tree depth 2
    and subsample 0.8, fitted it on the table and the target column built
    from the source, made it [self.saved] and written it to
    [<directory>/model.joblib] over whatever the file held; the calls
    happen in this order, the [dump] last. The new [saved] is the same
    whatever [saved] held before: nothing of the previous model is kept. *)
Theorem train_replaces_and_persists cfg sources st st' :
  train (self_of cfg) sources st = (Ok (), st') →
  let self := self_of cfg in
  let hyper := {| xgb_n_estimators := Config.n_estimators cfg;
                  xgb_learning_rate := Config.learning_rate cfg;
                  xgb_max_depth := 2;
                  xgb_subsample := 0x1.999999999999ap-1 |} in
  ∃ b,
    xgb_fit hyper (train_x self st sources) (train_y self st sources)
    = Returns b
    ∧ saved st' = Some {| params := hyper; booster := Some b |}
    ∧ files st'
      = <[(Config.directory cfg, "model.joblib") := Pickle (saved st')]>
          (files st)
    ∧ trace st'
      = trace st ++
        [with_features_call (features self ++ [target self]);
         XGBRegressor_call hyper;
         fit_call hyper (train_x self st sources) (train_y self st sources);
         dump_call (saved st') (Config.directory cfg, "model.joblib")]
    ∧ heap st' = heap st
    ∧ ∀ previous, saved (train self sources (set_saved previous st)).2
                  = saved st'.
Proof.
  intros Htrain. cbv zeta. rewrite train_run in Htrain.
  change (train_params (self_of cfg)) with
    {| xgb_n_estimators := Config.n_estimators cfg;
       xgb_learning_rate := Config.learning_rate cfg;
       xgb_max_depth := 2;
       xgb_subsample := 0x1.999999999999ap-1 |} in Htrain.
  destruct (xgb_fit _ _ _) as [b|msg] eqn:Hfit; [|done].
  cbv zeta in Htrain.
  destruct (bool_decide _) eqn:Hdir; [|done].
  injection Htrain as <-. exists b. split_and!; try done.
  intros previous. rewrite train_run.
  change (train_x (self_of cfg) (set_saved previous st) sources)
    with (train_x (self_of cfg) st sources).
  change (train_y (self_of cfg) (set_saved previous st) sources)
    with (train_y (self_of cfg) st sources).
  change (train_params (self_of cfg)) with
    {| xgb_n_estimators := Config.n_estimators cfg;
       xgb_learning_rate := Config.learning_rate cfg;
       xgb_max_depth := 2;
       xgb_subsample := 0x1.999999999999ap-1 |}.
  rewrite Hfit. cbv zeta. cbn [dirs set_saved]. by rewrite Hdir.
Qed.


(** C10. [train] assigns the new regressor to [self.saved] before it calls
    [fit]. When [fit] raises, [train] raises the same exception, the files
    are untouched, and [saved] holds the new, unfitted regressor whatever
    it held before; [accuracy] and [predict] then pass their check and
    raise something other than [ModelNotTrained], or return. *)
Theorem failed_fit_leaves_unfitted_model self sources st msg :
  xgb_fit (train_params self) (train_x self st sources)
          (train_y self st sources) = Throws msg →
  ∃ st',
    train self sources st = (Raise (LibraryError msg), st')
    ∧ saved st' = Some {| params := train_params self; booster := None |}
    ∧ files st' = files st
    ∧ ∀ sources' text,
        (accuracy self sources' st').1 ≠ Raise (ModelNotTrained text)
        ∧ (predict self sources' st').1 ≠ Raise (ModelNotTrained text).
Proof.
  intros Hfit. rewrite train_run, Hfit. eexists. split_and!; try done.
  intros sources' text.
  set (st' := set_saved _ _).
  assert (saved st' = Some (unfitted self)) as Hsaved by done.
  split.
  - rewrite (accuracy_run _ _ _ _ Hsaved). cbv zeta.
    destruct (xgb_predict _ _ _); [|done].
    destruct (target_column _ _ _) as [actuals|e] eqn:Hcolumn.
    + by destruct (r2_score _ _).
    + by rewrite (target_column_raises _ _ _ _ Hcolumn).
  - unfold predict. cbv [mbind M_bind].
    rewrite (predict_start_run _ _ _ _ Hsaved).
    destruct (xgb_predict _ _ _); [|done].
    by rewrite predict_resume_run.
Qed.

(** C6. With a model in [saved], [accuracy] returns the R2 score of the
    records' true target values against the model's predictions for the
    feature table of the records the source yields for the configured
    input features ([accuracy_result]). [saved], the record objects and the
    files are as before; the calls made only read, ask or print. *)
Theorem accuracy_is_r2_score self sources st m :
  saved st = Some m →
  ∃ st' calls,
    accuracy self sources st = (accuracy_result self m st sources, st')
    ∧ saved st' = Some m
    ∧ heap st' = heap st
    ∧ files st' = files st
    ∧ dirs st' = dirs st
    ∧ trace st' = trace st ++ calls
    ∧ forallb reads_only calls = true.
Proof.
  intros Hsaved. rewrite (accuracy_run _ _ _ _ Hsaved). cbv zeta.
  unfold accuracy_result.
  destruct (xgb_predict _ _ _) as [predictions|msg].
  - destruct (target_column _ _ _) as [actuals|e].
    + destruct (r2_score actuals predictions) as [score|msg];
        do 2 eexists; split_and!; done.
    + do 2 eexists; split_and!; done.
  - do 2 eexists; split_and!; done.
Qed.

(** C7. With a model in [saved] that answers with one prediction per row,
    [predict] asks for all predictions in one call on the whole table
    before its loop starts ([predict_start] ends with that call and holds
    every pair to come), and then yields the input records one by one in
    input order, each being the input record with [float(prediction)] and a
    NaN confidence attached under the target's name. *)
Theorem predict_yields_every_record self sources st m predictions :
  saved st = Some m →
  xgb_predict (params m) (booster m) (input_x self st sources)
  = Returns predictions →
  length predictions = length (input_records self st sources) →
  let t := name (Config.predict (config self)) in
  let input_data := input_records self st sources in
  let frame := zip input_data predictions in
  ∃ st1 st',
    predict_start self sources st = (Ok frame, st1)
    ∧ trace st1
      = trace st ++ [with_features_call (names (Config.features (config self)));
                     predict_call m (input_x self st sources)]
    ∧ heap st1 = heap st
    ∧ predict self sources st
      = (Ok ((λ rp, (rp.1, Record.predicted (heap st rp.1) t
                                            (py_float rp.2) float_nan))
             <$> frame), st')
    ∧ frame.*1 = input_data
    ∧ frame.*2 = predictions
    ∧ trace st' = trace st1 ++ yield_calls t frame
    ∧ saved st' = Some m
    ∧ files st' = files st.
Proof.
  intros Hsaved Hpredict Hlength. cbv zeta.
  pose proof (predict_start_run self sources _ _ Hsaved) as Hstart.
  rewrite Hpredict in Hstart.
  do 2 eexists. split_and!.
  - exact Hstart.
  - done.
  - done.
  - unfold predict. cbv [mbind M_bind]. rewrite Hstart.
    rewrite predict_resume_run.
    rewrite (snapshots_predicted _ (heap st)) by apply overwritten_refl.
    reflexivity.
  - apply fst_zip. lia.
  - apply snd_zip. lia.
  - done.
  - done.
  - done.
Qed.

(** [predict], run to the end by its consumer. *)
Lemma predict_run self sources st m :
  saved st = Some m →
  predict self sources st
  = match xgb_predict (params m) (booster m) (input_x self st sources) with
    | Throws msg =>
        (Raise (LibraryError msg), logged st (input_calls self m st sources))
    | Returns predictions =>
        let frame := zip (input_records self st sources) predictions in
        (Ok (snapshots (target self) (heap st) frame),
         set_heap (heap_after (target self) (heap st) frame)
           (logged st (input_calls self m st sources
                       ++ yield_calls (target self) frame)))
    end.
Proof.
  intros Hsaved. unfold predict. cbv [mbind M_bind].
  rewrite (predict_start_run _ _ _ _ Hsaved).
  destruct (xgb_predict _ _ _) as [predictions|msg]; [|done].
  rewrite predict_resume_run. cbv zeta. f_equal.
  unfold set_heap, logged, set_trace. cbn [heap saved files dirs trace].
  by rewrite <- app_assoc.
Qed.

(** C5, as the code has it. The adapter compares no row lengths. For every
    batch the build returns its rows, of whatever lengths, and the table
    goes as built to the regressor's [fit] ([train]) or [predict]
    ([accuracy], [predict]); none of the three methods raises
    [FeatureShapeError]. *)
Theorem table_goes_unchecked_to_the_regressor self sources st m :
  saved st = Some m →
  (∀ records,
     xdata_loop self records st
     = (Ok (rows_from (heap st <$> records) (features self)), st))
  ∧ fit_call (train_params self) (train_x self st sources)
             (train_y self st sources) ∈ trace (train self sources st).2
  ∧ predict_call m (input_x self st sources)
    ∈ trace (accuracy self sources st).2
  ∧ predict_call m (input_x self st sources)
    ∈ trace (predict self sources st).2
  ∧ (train self sources st).1 ≠ Raise FeatureShapeError
  ∧ (accuracy self sources st).1 ≠ Raise FeatureShapeError
  ∧ (predict self sources st).1 ≠ Raise FeatureShapeError.
Proof.
  intros Hsaved. split_and!.
  - intros records. apply xdata_loop_rows.
  - rewrite train_run. unfold train_calls.
    destruct (xgb_fit _ _ _); [cbv zeta; destruct (bool_decide _)|];
      cbn [snd trace set_files set_saved logged set_trace]; set_solver.
  - rewrite (accuracy_run _ _ _ _ Hsaved). cbv zeta. unfold input_calls.
    destruct (xgb_predict _ _ _) as [predictions|];
      [destruct (target_column _ _ _) as [actuals|];
       [destruct (r2_score actuals predictions)|]|];
      cbn [snd trace set_files set_saved logged set_trace]; set_solver.
  - rewrite (predict_run _ _ _ _ Hsaved). unfold input_calls.
    destruct (xgb_predict _ _ _) as [predictions|]; cbv zeta;
      cbn [snd trace set_heap set_files set_saved logged set_trace];
      set_solver.
  - rewrite train_run.
    destruct (xgb_fit _ _ _); [cbv zeta; destruct (bool_decide _)|]; done.
  - rewrite (accuracy_run _ _ _ _ Hsaved). cbv zeta.
    destruct (xgb_predict _ _ _) as [predictions|];
      [destruct (target_column _ _ _) as [actuals|e] eqn:Hcolumn;
       [destruct (r2_score actuals predictions)|]|]; try done.
    by rewrite (target_column_raises _ _ _ _ Hcolumn).
  - rewrite (predict_run _ _ _ _ Hsaved).
    by destruct (xgb_predict _ _ _) as [predictions|].
Qed.

End Proofs.

(** ** The claims on the example *)

(** C1 on the untrained example state. *)
Lemma untrained_model_raises_demo :
  saved Demo.st0 = None
  ∧ accuracy Demo.self [0; 1; 2] Demo.st0
    = (Raise (ModelNotTrained "Train the model before assessing accuracy"),
       Demo.st0)
  ∧ predict Demo.self [0; 1; 2] Demo.st0
    = (Raise (ModelNotTrained
                "Train the model first before getting preictions"),
       Demo.st0).
Proof.
  split; [reflexivity|].
  apply (untrained_model_raises Demo.self [0; 1; 2] Demo.st0). reflexivity.
Defined.

(** C2 on the example: training on the three records succeeds. *)
Lemma train_replaces_and_persists_demo :
  let st' := (train (self_of Demo.cfg) [0; 1; 2] Demo.st0).2 in
  train (self_of Demo.cfg) [0; 1; 2] Demo.st0 = (Ok (), st')
  ∧ ∃ b, saved st' = Some {| params := train_params (self_of Demo.cfg);
                             booster := Some b |}
         ∧ files st'
           = <[("/tmp/model", "model.joblib") := Pickle (saved st')]>
               (files Demo.st0).
Proof.
  assert (train (self_of Demo.cfg) [0; 1; 2] Demo.st0
          = (Ok (), (train (self_of Demo.cfg) [0; 1; 2] Demo.st0).2)) as Hrun
    by (vm_compute; reflexivity).
  split; [exact Hrun|].
  destruct (train_replaces_and_persists Demo.cfg [0; 1; 2] Demo.st0 _ Hrun)
    as (b & _ & Hsaved & Hfiles & _).
  exists b. split; [exact Hsaved | exact Hfiles].
Defined.



(** C5: the example batch has rows of lengths 2, 3 and 2. The build
    returns them, [train] fits on them and returns, and [predict] yields
    its three records: no [FeatureShapeError] anywhere. *)
Lemma ragged_rows_raise_no_shape_error :
  let table := rows_from (Demo.records <$> [0; 1; 2]) (features Demo.self) in
  length <$> table = [2; 3; 2]
  ∧ xdata_loop Demo.self [0; 1; 2] Demo.st0 = (Ok table, Demo.st0)
  ∧ (train Demo.self [0; 1; 2] Demo.st0).1 = Ok ()
  ∧ (train Demo.self [0; 1; 2] Demo.st0).1 ≠ Raise FeatureShapeError
  ∧ match (predict Demo.self [0; 1; 2] Demo.st1).1 with
    | Ok yields => length yields = 3
    | Raise _ => False
    end
  ∧ (accuracy Demo.self [0; 1; 2] Demo.st1).1 = Ok 1%float.
Proof.
  cbv zeta. split_and!; try (vm_compute; reflexivity).
  vm_compute. intros [=].
Qed.

(** C5 as amended, on the example. *)
Lemma table_goes_unchecked_to_the_regressor_demo :
  saved Demo.st1 = Some Demo.fitted
  ∧ predict_call Demo.fitted (input_x Demo.self Demo.st1 [0; 1; 2])
    ∈ trace (predict Demo.self [0; 1; 2] Demo.st1).2
  ∧ (predict Demo.self [0; 1; 2] Demo.st1).1 ≠ Raise FeatureShapeError.
Proof.
  split; [reflexivity|].
  destruct (table_goes_unchecked_to_the_regressor
              Demo.self [0; 1; 2] Demo.st1 Demo.fitted eq_refl)
    as (_ & _ & _ & Hcall & _ & _ & Hresult).
  split; [exact Hcall | exact Hresult].
Defined.

(** C6 on the trained example state. *)
Lemma accuracy_is_r2_score_demo :
  saved Demo.st1 = Some Demo.fitted
  ∧ ∃ st', accuracy Demo.self [0; 1; 2] Demo.st1 = (Ok 1%float, st')
           ∧ heap st' = heap Demo.st1
           ∧ files st' = files Demo.st1.
Proof.
  split; [reflexivity|].
  destruct (accuracy_is_r2_score Demo.self [0; 1; 2] Demo.st1 Demo.fitted
              eq_refl)
    as (st' & calls & Hrun & _ & Hheap & Hfiles & _).
  exists st'. split_and!; [|exact Hheap|exact Hfiles].
  rewrite Hrun. f_equal.
Defined.

(** C7 on the trained example state: three records, three predictions. *)
Lemma predict_yields_every_record_demo :
  ∃ st', predict Demo.self [0; 1; 2] Demo.st1
         = (Ok ((λ a, (a, Record.predicted (Demo.records a) "Target"
                                           8.5%float nan))
                <$> [0; 1; 2]), st').
Proof.
  destruct (predict_yields_every_record Demo.self [0; 1; 2] Demo.st1
              Demo.fitted [8.5%float; 8.5%float; 8.5%float]
              eq_refl eq_refl eq_refl)
    as (st1 & st' & _ & _ & _ & Hrun & _).
  exists st'. exact Hrun.
Defined.

(** C9 on the example: the untrained and the trained state differ in
    [saved] and in the files, and build the same table. *)
Lemma table_build_deterministic_demo :
  (xdata_loop Demo.self [0; 1; 2] Demo.st0).1
  = (xdata_loop Demo.self [0; 1; 2] Demo.st1).1.
Proof.
  destruct (table_build_deterministic Demo.self Demo.self [0; 1; 2] [0; 1; 2]
              Demo.st0 Demo.st1 [] eq_refl eq_refl)
    as (table & Hrun0 & Hrun1 & _).
  rewrite Hrun0, Hrun1. reflexivity.
Defined.

(** C10 on the example: after the failed [train] on the empty source,
    [accuracy] raises the regressor's own exception. *)
Lemma failed_fit_leaves_unfitted_model_demo :
  ∃ st',
    train Demo.self [] Demo.st1
    = (Raise (LibraryError "empty training table"), st')
    ∧ saved st' = Some {| params := train_params Demo.self; booster := None |}
    ∧ (accuracy Demo.self [0; 1; 2] st').1
      ≠ Raise (ModelNotTrained "Train the model before assessing accuracy").
Proof.
  destruct (failed_fit_leaves_unfitted_model Demo.self [] Demo.st1
              "empty training table" eq_refl)
    as (st' & Hrun & Hsaved & _ & Hlater).
  exists st'. split_and!; [exact Hrun | exact Hsaved |].
  apply (Hlater [0; 1; 2]).
Defined.

(** * Further properties of the adapter *)

Section More.
Context `{Libraries}.

Ltac step :=
  cbv [mbind M_bind mret M_ret get put raise lift of_outcome log modify
       deref record_feature with_features saved_predict saved_fit
       call_r2_score print new_XGBRegressor is_file joblib_load joblib_dump
       record_predicted].

(** What [__init__] does, by the content of the model's path. *)
Lemma init_run cfg st :
  __init__ cfg st =
  match files st !! model_path cfg with
  | None => (Ok (self_of cfg), set_saved None st)
  | Some (Pickle o) =>
      (Ok (self_of cfg), set_saved o (logged st [load_call (model_path cfg)]))
  | Some Corrupt =>
      (Raise (LibraryError "cannot unpickle"),
       set_saved None (logged st [load_call (model_path cfg)]))
  end.
Proof.
  unfold __init__. step.
  cbn [heap saved files dirs trace set_trace set_saved set_files].
  fold (model_path cfg).
  destruct (files st !! model_path cfg) as [[o|]|] eqn:Hfile.
  - rewrite bool_decide_eq_true_2 by eauto.
    cbn [files set_trace set_saved]. by rewrite Hfile.
  - rewrite bool_decide_eq_true_2 by eauto.
    cbn [files set_trace set_saved]. by rewrite Hfile.
  - by rewrite bool_decide_eq_false_2 by (by intros [? ?]).
Qed.

(** X1. Save and load round trip: whatever a returning [train] leaves on
    disk, a new adapter constructed for the same configuration, in any
    process that sees these files, starts with the regressor that [train]
    fitted in [saved], so it is ready for [accuracy] and [predict] without
    training. *)
Theorem trained_model_is_loaded_back cfg sources st st' process :
  train (self_of cfg) sources st = (Ok (), st') →
  files process = files st' →
  ∃ b loaded,
    saved st' = Some (fitted_with (self_of cfg) b)
    ∧ __init__ cfg process = (Ok (self_of cfg), loaded)
    ∧ saved loaded = saved st'
    ∧ files loaded = files st'
    ∧ trace loaded = trace process ++ [load_call (model_path cfg)].
Proof.
  rewrite train_run. intros Htrain Hfiles.
  destruct (xgb_fit _ _ _) as [b|msg]; [|done]. cbv zeta in Htrain.
  destruct (bool_decide _); [|done]. injection Htrain as <-.
  exists b. rewrite init_run, Hfiles.
  cbn [files set_files set_saved logged set_trace saved_filepath self_of].
  rewrite lookup_insert_eq. eexists. split_and!; done.
Qed.

(** X2. A [train] whose [fit] throws costs the adapter its model in memory
    only. If a model was on disk before, the file still holds it, and a new
    adapter for the same configuration gets it back, while the adapter that
    failed holds the unfitted regressor. *)
Theorem failed_train_recovered_by_new_adapter cfg sources st msg previous :
  xgb_fit (train_params (self_of cfg)) (train_x (self_of cfg) st sources)
          (train_y (self_of cfg) st sources) = Throws msg →
  files st !! model_path cfg = Some (Pickle previous) →
  ∃ st' loaded,
    train (self_of cfg) sources st = (Raise (LibraryError msg), st')
    ∧ saved st' = Some (unfitted (self_of cfg))
    ∧ __init__ cfg st' = (Ok (self_of cfg), loaded)
    ∧ saved loaded = previous.
Proof.
  intros Hfit Hfile. rewrite train_run, Hfit. do 2 eexists.
  split_and!; [done|done| |].
  - rewrite init_run.
    cbn [files set_files set_saved logged set_trace]. rewrite Hfile.
    reflexivity.
  - done.
Qed.

(** X3. After a [train] that returns, [accuracy] and [predict] put their
    question to the regressor that this [train] fitted: the [predict] call
    they log carries that regressor, and their result is the one computed
    from its answer. *)
Theorem trained_model_is_the_one_queried self sources st st' later :
  train self sources st = (Ok (), st') →
  ∃ b,
    xgb_fit (train_params self) (train_x self st sources)
            (train_y self st sources) = Returns b
    ∧ (accuracy self later st').1
      = accuracy_result self (fitted_with self b) st' later
    ∧ predict_call (fitted_with self b) (input_x self st' later)
      ∈ trace (accuracy self later st').2
    ∧ predict_call (fitted_with self b) (input_x self st' later)
      ∈ trace (predict self later st').2.
Proof.
  rewrite train_run. intros Htrain.
  destruct (xgb_fit _ _ _) as [b|msg]; [|done]. cbv zeta in Htrain.
  destruct (bool_decide _); [|done]. injection Htrain as <-.
  exists b. set (st' := set_files _ _).
  assert (saved st' = Some (fitted_with self b)) as Hsaved by done.
  split_and!; [done| | |].
  - rewrite (accuracy_run _ _ _ _ Hsaved). cbv zeta. unfold accuracy_result.
    destruct (xgb_predict _ _ _) as [predictions|]; [|done].
    destruct (target_column _ _ _) as [actuals|]; [|done].
    by destruct (r2_score actuals predictions).
  - rewrite (accuracy_run _ _ _ _ Hsaved). cbv zeta. unfold input_calls.
    destruct (xgb_predict _ _ _) as [predictions|];
      [destruct (target_column _ _ _) as [actuals|];
       [destruct (r2_score actuals predictions)|]|];
      cbn [snd trace logged set_trace]; set_solver.
  - rewrite (predict_run _ _ _ _ Hsaved). unfold input_calls.
    destruct (xgb_predict _ _ _) as [predictions|]; cbv zeta;
      cbn [snd trace set_heap logged set_trace]; set_solver.
Qed.

(** ** Reading targets *)

Lemma target_column_length h (t : string) records ys :
  target_column h t records = Ok ys → length ys = length records.
Proof.
  revert ys. induction records as [|r rs IH]; intros ys; simpl.
  - by intros [= <-].
  - destruct (Record.data_features (h r) !! t); [|done].
    destruct (target_column h t rs) as [vs|]; [|done].
    intros [= <-]. simpl. by rewrite (IH vs).
Qed.

Lemma target_column_missing h (t : string) records a :
  a ∈ records → Record.data_features (h a) !! t = None →
  target_column h t records = Raise (KeyError t).
Proof.
  intros Ha Hnone. induction records as [|r rs IH]; [by inversion Ha|].
  simpl. destruct (decide (r = a)) as [->|Hne].
  - by rewrite Hnone.
  - destruct (Record.data_features (h r) !! t); [|done].
    rewrite IH; [done|]. apply elem_of_cons in Ha as [->|Ha]; done.
Qed.

(** X4. [train] asks the source for records that have the input features
    and the target, so reading the target never fails there: no [train]
    raises [KeyError], and the table and the target column handed to [fit]
    both have one entry per record the source yielded. *)
Theorem train_table_and_targets_aligned self sources st :
  length (frame_data (train_x self st sources))
  = length (train_records self st sources)
  ∧ length (frame_data (train_y self st sources))
    = length (train_records self st sources)
  ∧ fit_call (train_params self) (train_x self st sources)
             (train_y self st sources) ∈ trace (train self sources st).2
  ∧ ∀ k, (train self sources st).1 ≠ Raise (KeyError k).
Proof.
  split_and!.
  - unfold train_x, rows_from. cbn [frame_data]. by rewrite !length_fmap.
  - unfold train_y. cbn [frame_data].
    apply target_column_length with (h := heap st) (t := target self).
    apply target_column_values, yielded_has_target. set_solver.
  - rewrite train_run. unfold train_calls.
    destruct (xgb_fit _ _ _); [cbv zeta; destruct (bool_decide _)|];
      cbn [snd trace set_files set_saved logged set_trace]; set_solver.
  - intros k. rewrite train_run.
    destruct (xgb_fit _ _ _); [cbv zeta; destruct (bool_decide _)|]; done.
Qed.

(** X5. [accuracy] asks the source for the input features only and reads
    the target afterwards. When a record it was given has no target value,
    [accuracy] raises [KeyError] for the target's name; this happens after
    the regressor has been asked for its predictions and before any score
    is computed. [predict] does not read the target and still yields. *)
Theorem accuracy_needs_every_target self sources st m predictions a :
  saved st = Some m →
  xgb_predict (params m) (booster m) (input_x self st sources)
  = Returns predictions →
  a ∈ input_records self st sources →
  Record.data_features (heap st a) !! target self = None →
  accuracy self sources st
  = (Raise (KeyError (target self)),
     logged st [with_features_call (names (Config.features (config self)));
                predict_call m (input_x self st sources)])
  ∧ ∃ yields, (predict self sources st).1 = Ok yields.
Proof.
  intros Hsaved Hpredict Ha Hnone. split.
  - rewrite (accuracy_run _ _ _ _ Hsaved), Hpredict. cbv zeta.
    by rewrite (target_column_missing _ _ _ a).
  - rewrite (predict_run _ _ _ _ Hsaved), Hpredict. cbv zeta. by eexists.
Qed.

(** ** What the generator's loop does to the records *)

Lemma fst_zip_take {A B} (l : list A) (k : list B) :
  (zip l k).*1 = take (length k) l.
Proof.
  revert k. induction l as [|x l IH]; intros [|y k]; simpl; [done..|].
  by rewrite IH.
Qed.

Lemma heap_after_lookup (t : string) h0 h frame a :
  overwritten t h0 h →
  heap_after t h frame a
  = match last_prediction a frame with
    | Some p => Record.predicted (h0 a) t (py_float p) float_nan
    | None => h a
    end.
Proof.
  revert h. induction frame as [|rp frame IH]; intros h Hh; [done|].
  cbn [heap_after fold_left last_prediction].
  fold (heap_after t (attach t h rp) frame).
  rewrite IH by (by apply overwritten_attach).
  destruct (last_prediction a frame); [done|].
  destruct (decide (rp.1 = a)) as [<-|Hne].
  - by apply attach_lookup.
  - unfold attach. by apply fn_lookup_insert_ne.
Qed.

Lemma overwritten_features (t : string) h0 h a :
  overwritten t h0 h →
  Record.key (h a) = Record.key (h0 a)
  ∧ Record.data_features (h a) = Record.data_features (h0 a)
  ∧ ∀ k, k ≠ t →
      Record.data_prediction (h a) !! k = Record.data_prediction (h0 a) !! k.
Proof.
  intros Hh. destruct (Hh a) as [->|(v & c & ->)]; [done|].
  split_and!; [done..|]. intros k Hk. cbn [Record.predicted
    Record.data_prediction]. by apply lookup_insert_ne.
Qed.

(** X6. [predict] pairs records and predictions with [zip]: when the
    regressor answers with fewer predictions than there are records, only
    the first records, as many as there are predictions, are yielded, and
    the others are left as they were; no exception is raised. *)
Theorem predict_stops_with_the_predictions self sources st m predictions :
  saved st = Some m →
  xgb_predict (params m) (booster m) (input_x self st sources)
  = Returns predictions →
  ∃ yields st',
    predict self sources st = (Ok yields, st')
    ∧ length yields
      = length (input_records self st sources) `min` length predictions
    ∧ yields.*1
      = take (length predictions) (input_records self st sources)
    ∧ ∀ a, a ∉ take (length predictions) (input_records self st sources) →
           heap st' a = heap st a.
Proof.
  intros Hsaved Hpredict.
  rewrite (predict_run _ _ _ _ Hsaved), Hpredict. cbv zeta.
  do 2 eexists. split_and!; [done| | |].
  - rewrite (snapshots_predicted _ (heap st)) by apply overwritten_refl.
    rewrite length_fmap. apply length_zip_with.
  - rewrite (snapshots_predicted _ (heap st)) by apply overwritten_refl.
    rewrite <- list_fmap_compose. rewrite <- fst_zip_take.
    by apply list_fmap_ext.
  - intros a Ha. cbn [heap set_heap]. apply heap_after_other.
    by rewrite fst_zip_take.
Qed.

(** X7. Whatever [predict] does, it leaves [saved] and the files alone, and
    on a record it changes nothing but the prediction stored under the
    target's name: key, feature values and predictions under other names
    stay, and a record the source did not yield is untouched. *)
Theorem predict_touches_only_its_prediction self sources st m :
  saved st = Some m →
  let st' := (predict self sources st).2 in
  saved st' = Some m
  ∧ files st' = files st
  ∧ ∀ a,
      Record.key (heap st' a) = Record.key (heap st a)
      ∧ Record.data_features (heap st' a) = Record.data_features (heap st a)
      ∧ (∀ k, k ≠ target self →
           Record.data_prediction (heap st' a) !! k
           = Record.data_prediction (heap st a) !! k)
      ∧ (a ∉ input_records self st sources → heap st' a = heap st a).
Proof.
  intros Hsaved. cbv zeta. rewrite (predict_run _ _ _ _ Hsaved).
  destruct (xgb_predict _ _ _) as [predictions|msg]; cbv zeta.
  - split_and!; [done..|]. intros a. cbn [snd heap set_heap].
    pose proof (overwritten_features (target self) (heap st) _ a
      (heap_after_overwritten _ _ _
         (zip (input_records self st sources) predictions)
         (overwritten_refl _ (heap st)))) as (Hkey & Hfeatures & Hothers).
    split_and!; [done..|]. intros Ha. apply heap_after_other.
    rewrite fst_zip_take. intros Hin. apply Ha.
    apply elem_of_take in Hin as (i & Hi & _).
    by eapply list_elem_of_lookup_2.
  - split_and!; [done..|]. intros a. by split_and!.
Qed.

(** ** Records with the same feature values *)

Lemma row_of_ext ns r r' :
  Record.data_features r' = Record.data_features r →
  row_of ns r' = row_of ns r.
Proof. intros Hf. unfold row_of. by rewrite Hf. Qed.

Lemma rows_from_ext (h h' : nat → Record.t) records ns :
  (∀ a, Record.data_features (h' a) = Record.data_features (h a)) →
  rows_from (h' <$> records) ns = rows_from (h <$> records) ns.
Proof.
  intros Hf. unfold rows_from. rewrite <- !list_fmap_compose.
  apply list_fmap_ext. intros i a _. by apply row_of_ext.
Qed.

Lemma yielded_ext st st' sources ns :
  (∀ a, Record.data_features (heap st' a) = Record.data_features (heap st a)) →
  yielded st' sources ns = yielded st sources ns.
Proof.
  intros Hf. unfold yielded. apply list_filter_iff. intros a.
  unfold Record.has_features. by rewrite Hf.
Qed.

Lemma target_column_ext (h h' : nat → Record.t) (t : string) records :
  (∀ a, Record.data_features (h' a) = Record.data_features (h a)) →
  target_column h' t records = target_column h t records.
Proof.
  intros Hf. induction records as [|r rs IH]; [done|]. simpl.
  by rewrite Hf, IH.
Qed.

Lemma input_x_ext self st st' sources :
  (∀ a, Record.data_features (heap st' a) = Record.data_features (heap st a)) →
  input_records self st' sources = input_records self st sources
  ∧ input_x self st' sources = input_x self st sources.
Proof.
  intros Hf. unfold input_x, input_records.
  rewrite (yielded_ext st st') by done.
  by rewrite (rows_from_ext (heap st) (heap st')).
Qed.

(** X8. The predictions [predict] attaches do not feed back into later
    calls: after any [predict], [accuracy] on any source returns what it
    would have returned before, and a second [predict] on the same source
    yields the same records as the first and leaves every record as the
    first left it. *)
Theorem predict_does_not_feed_back self sources st m later :
  saved st = Some m →
  let first := predict self sources st in
  let second := predict self sources first.2 in
  (accuracy self later first.2).1 = (accuracy self later st).1
  ∧ second.1 = first.1
  ∧ ∀ a, heap second.2 a = heap first.2 a.
Proof.
  intros Hsaved. cbv zeta.
  set (t := target self).
  assert (saved (predict self sources st).2 = Some m
          ∧ overwritten t (heap st) (heap (predict self sources st).2))
    as [Hsaved' Hover].
  { rewrite (predict_run _ _ _ _ Hsaved).
    destruct (xgb_predict _ _ _) as [predictions|msg]; cbv zeta.
    - split; [done|]. cbn [snd heap set_heap].
      apply heap_after_overwritten, overwritten_refl.
    - split; [done|]. apply overwritten_refl. }
  assert (∀ a, Record.data_features (heap (predict self sources st).2 a)
               = Record.data_features (heap st a)) as Hfeatures.
  { intros a. by apply (overwritten_features t (heap st)). }
  split_and!.
  - rewrite (accuracy_run _ _ _ _ Hsaved'), (accuracy_run _ _ _ _ Hsaved).
    cbv zeta.
    destruct (input_x_ext self st _ later Hfeatures) as [-> ->].
    rewrite (target_column_ext (heap st) _ _ _ Hfeatures).
    destruct (xgb_predict _ _ _) as [predictions|]; [|done].
    destruct (target_column _ _ _) as [actuals|]; [|done].
    by destruct (r2_score actuals predictions).
  - rewrite (predict_run _ _ _ _ Hsaved').
    destruct (input_x_ext self st _ sources Hfeatures) as [-> ->].
    revert Hover. rewrite (predict_run _ _ _ _ Hsaved).
    destruct (xgb_predict _ _ _) as [predictions|]; [|done].
    cbv zeta. cbn [fst snd]. intros Hover. f_equal.
    rewrite (snapshots_predicted t (heap st)) by done.
    by rewrite (snapshots_predicted t (heap st)) by apply overwritten_refl.
  - intros a. rewrite (predict_run _ _ _ _ Hsaved').
    destruct (input_x_ext self st _ sources Hfeatures) as [-> ->].
    revert Hover. rewrite (predict_run _ _ _ _ Hsaved).
    destruct (xgb_predict _ _ _) as [predictions|]; [|done].
    cbv zeta. cbn [fst snd heap set_heap logged set_trace]. intros Hover.
    rewrite (heap_after_lookup t (heap st)) by done.
    rewrite (heap_after_lookup t (heap st) (heap st))
      by apply overwritten_refl.
    by destruct (last_prediction a _).
Qed.

(** X9. The generator updates a record only when the consumer asks for it.
    A consumer that takes [k] records and abandons the generator has run
    the loop body for the first [k] pairs and no more: it received at most
    [k] records, and every record that is not among those handed over is
    as it was, also when a prediction for it had been computed. *)
Theorem predict_updates_on_request self k frame st :
  predict_requests self k frame st = predict_resume self (take k frame) st
  ∧ match (predict_requests self k frame st).1 with
    | Ok yields => length yields = k `min` length frame
    | Raise _ => False
    end
  ∧ ∀ a, a ∉ (take k frame).*1 →
         heap (predict_requests self k frame st).2 a = heap st a.
Proof.
  assert (∀ k frame st, predict_requests self k frame st
                        = predict_resume self (take k frame) st) as Heq.
  { clear. intros k. induction k as [|k IH]; intros [|[record p] frame] st;
      [done..|].
    cbn [predict_requests take predict_resume]. unfold predict_step. step.
    by rewrite IH. }
  split_and!.
  - apply Heq.
  - rewrite Heq, predict_resume_run. cbn [fst].
    rewrite (snapshots_predicted _ (heap st)) by apply overwritten_refl.
    rewrite length_fmap, length_take. lia.
  - intros a Ha. rewrite Heq, predict_resume_run. cbn [snd heap set_heap].
    by apply heap_after_other.
Qed.

(** ** The width of a row *)

Lemma length_bind_contribution vs :
  length (vs ≫= contribution) = sum_list (width <$> vs).
Proof.
  induction vs as [|v vs IH]; [done|]. cbn [mbind list_bind fmap list_fmap
    sum_list sum_list_with]. rewrite length_app. fold (vs ≫= contribution).
  rewrite IH. by destruct v.
Qed.

(** X10. The number of elements of a row is the sum, over the values the
    record has for [self.features], of one for a scalar and the number of
    elements for a vector; vectors are opened one level only, an element
    that is itself a vector counts as one. *)
Theorem row_length_is_sum_of_widths self r :
  length (record_data_loop self r)
  = sum_list (width <$> Record.values (Record.features r (features self))).
Proof.
  unfold record_data_loop. rewrite fold_extend. cbn [app].
  apply length_bind_contribution.
Qed.

(** X11. When every record of a batch has a scalar value for every name in
    [self.features], the rows are these values in the order of the names,
    unchanged, and the table is rectangular: every row has as many
    elements as there are names. *)
Theorem scalar_features_give_rectangular_table self records st :
  Forall (λ a, Forall (λ n, ∃ x, Record.data_features (heap st a) !! n
                                 = Some (Scalar x)) (features self))
         records →
  ∃ table,
    xdata_loop self records st = (Ok table, st)
    ∧ table = (λ a, omap (λ n, Record.data_features (heap st a) !! n)
                         (features self)) <$> records
    ∧ Forall (λ row, length row = length (features self)) table.
Proof.
  intros Hscalar. rewrite xdata_loop_rows. eexists. split; [done|].
  assert (∀ r ns,
            Forall (λ n, ∃ x, Record.data_features r !! n = Some (Scalar x))
                   ns →
            row_of ns r = omap (λ n, Record.data_features r !! n) ns
            ∧ length (row_of ns r) = length ns) as Hrow.
  { clear. intros r ns. induction 1 as [|n ns [x Hx] _ [IH IHlen]]; [done|].
    unfold row_of in *. cbn [mbind list_bind omap list_omap].
    rewrite Hx. cbn [contribution app length]. split; by f_equal. }
  unfold rows_from. rewrite <- list_fmap_compose. split.
  - apply list_fmap_ext. intros i a Ha. cbn [compose].
    apply Hrow. rewrite list.Forall_forall in Hscalar. apply Hscalar.
    by eapply list_elem_of_lookup_2.
  - apply Forall_fmap. eapply list.Forall_impl; [exact Hscalar|].
    intros a Ha. cbn [compose]. by apply Hrow.
Qed.

(** X12. An [accuracy] call that returns had a model in [saved]; it read
    one true value per record of the table, computed the score twice on
    the same arguments, and printed once, between the two, the value it
    returns. *)
Theorem accuracy_prints_what_it_returns self sources st score st' :
  accuracy self sources st = (Ok score, st') →
  ∃ m actuals predictions,
    saved st = Some m
    ∧ xgb_predict (params m) (booster m) (input_x self st sources)
      = Returns predictions
    ∧ target_column (heap st) (target self) (input_records self st sources)
      = Ok actuals
    ∧ length actuals = length (frame_data (input_x self st sources))
    ∧ r2_score actuals predictions = Returns score
    ∧ trace st'
      = trace st ++
        [with_features_call (names (Config.features (config self)));
         predict_call m (input_x self st sources);
         r2_score_call actuals predictions;
         print_call score;
         r2_score_call actuals predictions].
Proof.
  destruct (saved st) as [m|] eqn:Hsaved.
  - rewrite (accuracy_run _ _ _ _ Hsaved). cbv zeta.
    destruct (xgb_predict _ _ _) as [predictions|] eqn:Hpredict; [|done].
    destruct (target_column _ _ _) as [actuals|] eqn:Hcolumn; [|done].
    destruct (r2_score actuals predictions) as [s|] eqn:Hscore; [|done].
    intros [= -> <-]. exists m, actuals, predictions.
    split_and!; [done..| |done|done].
    rewrite (target_column_length _ _ _ _ Hcolumn).
    unfold input_x, rows_from. cbn [frame_data]. by rewrite !length_fmap.
  - by rewrite accuracy_untrained.
Qed.

(** X13. Training again starts from nothing: when a second [train]
    returns after a first one, it ends with the same [saved] and the same
    files as the same call would have without the first training; nothing
    of the first model is left in memory or on disk. *)
Theorem retrain_forgets_first_training self first_sources sources st st1 st2 :
  train self first_sources st = (Ok (), st1) →
  train self sources st1 = (Ok (), st2) →
  ∃ alone,
    train self sources st = (Ok (), alone)
    ∧ saved alone = saved st2
    ∧ files alone = files st2.
Proof.
  rewrite (train_run self first_sources). intros Hfirst.
  destruct (xgb_fit _ _ _) as [b1|]; [|done]. cbv zeta in Hfirst.
  destruct (bool_decide _) eqn:Hdir; [|done]. injection Hfirst as <-.
  rewrite !(train_run self sources).
  change (train_x self (set_files _ _) sources)
    with (train_x self st sources).
  change (train_y self (set_files _ _) sources)
    with (train_y self st sources).
  destruct (xgb_fit _ _ _) as [b|msg]; [|done]. cbv zeta.
  cbn [dirs set_files set_saved logged set_trace]. rewrite Hdir.
  intros [= <-]. eexists. split_and!; [done..|].
  cbn [files set_files set_saved logged set_trace].
  symmetry. apply insert_insert_eq.
Qed.

(** ** The records after the generator is exhausted *)

Lemma last_prediction_other a frame :
  a ∉ frame.*1 → last_prediction a frame = None.
Proof.
  induction frame as [|rp frame IH]; [done|].
  rewrite fmap_cons, not_elem_of_cons. intros [Hne Ha].
  cbn [last_prediction]. rewrite IH by done. by rewrite decide_False.
Qed.

Lemma last_prediction_zip a p i (records : list nat) (predictions : list float) :
  NoDup records → records !! i = Some a → predictions !! i = Some p →
  last_prediction a (zip records predictions) = Some p.
Proof.
  intros Hnodup. revert i predictions.
  induction Hnodup as [|r records Hr _ IH]; intros i predictions; [done|].
  destruct predictions as [|q predictions]; [done|].
  destruct i as [|i]; cbn [lookup list_lookup zip zip_with last_prediction].
  - intros [= ->] [= ->]. rewrite last_prediction_other.
    + cbn [fst snd]. by rewrite decide_True.
    + rewrite fst_zip_take. intros Hin. apply Hr.
      apply elem_of_take in Hin as (j & Hj & _).
      by eapply list_elem_of_lookup_2.
  - intros Ha Hp. by rewrite (IH i predictions Ha Hp).
Qed.

(** X14. The predictions stay on the source's own record objects. After a
    [predict] that was consumed to the end, over a source without
    repeated records, record [i] of the source holds prediction [i] as a
    float, with NaN confidence, under the target's name, for whoever reads
    the source next. *)
Theorem predictions_stay_on_the_records self sources st m predictions i a p :
  saved st = Some m →
  xgb_predict (params m) (booster m) (input_x self st sources)
  = Returns predictions →
  NoDup (input_records self st sources) →
  input_records self st sources !! i = Some a →
  predictions !! i = Some p →
  Record.data_prediction (heap (predict self sources st).2 a)
    !! name (Config.predict (config self))
  = Some {| rp_value := py_float p; rp_confidence := float_nan |}.
Proof.
  intros Hsaved Hpredict Hnodup Ha Hp.
  rewrite (predict_run _ _ _ _ Hsaved), Hpredict. cbv zeta.
  cbn [snd heap set_heap].
  rewrite (heap_after_lookup _ (heap st)) by apply overwritten_refl.
  rewrite (last_prediction_zip a p i) by done.
  cbn [Record.predicted Record.data_prediction]. apply lookup_insert_eq.
Qed.

End More.

(** ** The further properties on the examples *)

(** X1 on the example: the adapter trains, another one is constructed in a
    process that has nothing in memory. *)
Lemma trained_model_is_loaded_back_demo :
  let st' := (train (self_of Demo.cfg) [0; 1; 2] Demo.st0).2 in
  ∃ loaded,
    __init__ Demo.cfg (set_saved None st') = (Ok (self_of Demo.cfg), loaded)
    ∧ saved loaded = saved st'.
Proof.
  assert (train (self_of Demo.cfg) [0; 1; 2] Demo.st0
          = (Ok (), (train (self_of Demo.cfg) [0; 1; 2] Demo.st0).2)) as Hrun
    by (vm_compute; reflexivity).
  destruct (trained_model_is_loaded_back Demo.cfg [0; 1; 2] Demo.st0 _
              (set_saved None (train (self_of Demo.cfg) [0; 1; 2] Demo.st0).2)
              Hrun eq_refl)
    as (b & loaded & _ & Hinit & Hsaved & _).
  exists loaded. split; [exact Hinit | exact Hsaved].
Defined.

(** X2 on the example: the failed [train] on the empty source. *)
Lemma failed_train_recovered_by_new_adapter_demo :
  ∃ st' loaded,
    train (self_of Demo.cfg) [] Demo.st1
    = (Raise (LibraryError "empty training table"), st')
    ∧ saved st' = Some (unfitted (self_of Demo.cfg))
    ∧ __init__ Demo.cfg st' = (Ok (self_of Demo.cfg), loaded)
    ∧ saved loaded = Some Demo.fitted.
Proof.
  apply (failed_train_recovered_by_new_adapter Demo.cfg [] Demo.st1
           "empty training table" (Some Demo.fitted)).
  - reflexivity.
  - vm_compute. reflexivity.
Defined.

(** X3 on the example. *)
Lemma trained_model_is_the_one_queried_demo :
  let st' := (train Demo.self [0; 1; 2] Demo.st0).2 in
  ∃ b, predict_call (fitted_with Demo.self b) (input_x Demo.self st' [0; 2])
       ∈ trace (predict Demo.self [0; 2] st').2.
Proof.
  assert (train Demo.self [0; 1; 2] Demo.st0
          = (Ok (), (train Demo.self [0; 1; 2] Demo.st0).2)) as Hrun
    by (vm_compute; reflexivity).
  destruct (trained_model_is_the_one_queried Demo.self [0; 1; 2] Demo.st0 _
              [0; 2] Hrun) as (b & _ & _ & _ & Hcall).
  exists b. exact Hcall.
Defined.

(** X5 on the records of which one has no target. *)
Lemma accuracy_needs_every_target_demo :
  (accuracy Demo.self [0; 1] Unlabelled.st).1 = Raise (KeyError "Target")
  ∧ ∃ yields, (predict Demo.self [0; 1] Unlabelled.st).1 = Ok yields.
Proof.
  destruct (accuracy_needs_every_target Demo.self [0; 1] Unlabelled.st
              Demo.fitted [8.5%float; 8.5%float] 1 eq_refl eq_refl)
    as [Haccuracy Hpredict].
  - compute_done.
  - vm_compute. reflexivity.
  - split; [|exact Hpredict]. rewrite Haccuracy. reflexivity.
Defined.

(** X6 with the regressor that answers with one prediction for three
    records. *)
Lemma predict_stops_with_the_predictions_demo :
  ∃ yields st',
    @predict Short.libraries Demo.self [0; 1; 2] Short.st = (Ok yields, st')
    ∧ length yields = 1
    ∧ yields.*1 = [0].
Proof.
  destruct (@predict_stops_with_the_predictions Short.libraries Demo.self
              [0; 1; 2] Short.st Short.fitted [2.5%float] eq_refl eq_refl)
    as (yields & st' & Hrun & Hlength & Hfirst & _).
  exists yields, st'. split_and!; [exact Hrun | exact Hlength | exact Hfirst].
Defined.

(** X7 on the trained example state. *)
Lemma predict_touches_only_its_prediction_demo :
  let st' := (predict Demo.self [0; 1; 2] Demo.st1).2 in
  files st' = files Demo.st1
  ∧ Record.data_features (heap st' 1) = Record.data_features (Demo.records 1).
Proof.
  destruct (predict_touches_only_its_prediction Demo.self [0; 1; 2] Demo.st1
              Demo.fitted eq_refl) as (_ & Hfiles & Hrecords).
  split; [exact Hfiles|]. destruct (Hrecords 1) as (_ & Hfeatures & _).
  exact Hfeatures.
Defined.

(** X8 on the trained example state. *)
Lemma predict_does_not_feed_back_demo :
  let first := predict Demo.self [0; 1; 2] Demo.st1 in
  (accuracy Demo.self [0; 1; 2] first.2).1
  = (accuracy Demo.self [0; 1; 2] Demo.st1).1
  ∧ (predict Demo.self [0; 1; 2] first.2).1 = first.1.
Proof.
  destruct (predict_does_not_feed_back Demo.self [0; 1; 2] Demo.st1
              Demo.fitted [0; 1; 2] eq_refl) as (Haccuracy & Hpredict & _).
  split; [exact Haccuracy | exact Hpredict].
Defined.

(** X9 on the example: one record taken of two; record 1 is as before. *)
Lemma predict_updates_on_request_demo :
  heap (predict_requests Demo.self 1 [(0, 8.5%float); (1, 8.5%float)]
          Demo.st1).2 1
  = Demo.records 1.
Proof.
  destruct (predict_updates_on_request Demo.self 1
              [(0, 8.5%float); (1, 8.5%float)] Demo.st1) as (_ & _ & Hother).
  apply (Hother 1). compute_done.
Defined.

(** X11 on the two example records whose features are scalars. *)
Lemma scalar_features_give_rectangular_table_demo :
  ∃ table,
    xdata_loop Demo.self [0; 2] Demo.st0 = (Ok table, Demo.st0)
    ∧ Forall (λ row, length row = 2) table.
Proof.
  destruct (scalar_features_give_rectangular_table Demo.self [0; 2] Demo.st0)
    as (table & Hrun & _ & Hlength).
  - repeat first [apply Forall_nil_2 | apply Forall_cons_2].
    + exists (SInt 1). vm_compute. reflexivity.
    + exists (SInt 2). vm_compute. reflexivity.
    + exists (SInt 6). vm_compute. reflexivity.
    + exists (SInt 7). vm_compute. reflexivity.
  - exists table. split; [exact Hrun | exact Hlength].
Defined.

(** X12 on the trained example state. *)
Lemma accuracy_prints_what_it_returns_demo :
  ∃ actuals predictions,
    trace (accuracy Demo.self [0; 1; 2] Demo.st1).2
    = [with_features_call ["Feature1"; "Feature2"];
       predict_call Demo.fitted (input_x Demo.self Demo.st1 [0; 1; 2]);
       r2_score_call actuals predictions;
       print_call 1%float;
       r2_score_call actuals predictions].
Proof.
  assert (accuracy Demo.self [0; 1; 2] Demo.st1
          = (Ok 1%float, (accuracy Demo.self [0; 1; 2] Demo.st1).2)) as Hrun
    by (vm_compute; reflexivity).
  destruct (accuracy_prints_what_it_returns Demo.self [0; 1; 2] Demo.st1 _ _
              Hrun)
    as (m & actuals & predictions & Hsaved & _ & _ & _ & _ & Htrace).
  exists actuals, predictions. rewrite Htrace.
  injection Hsaved as <-. reflexivity.
Defined.

(** X13 on the example: training on one record, then on three. *)
Lemma retrain_forgets_first_training_demo :
  let st1 := (train Demo.self [0] Demo.st0).2 in
  ∃ alone,
    train Demo.self [0; 1; 2] Demo.st0 = (Ok (), alone)
    ∧ saved alone = saved (train Demo.self [0; 1; 2] st1).2
    ∧ files alone = files (train Demo.self [0; 1; 2] st1).2.
Proof.
  assert (train Demo.self [0] Demo.st0
          = (Ok (), (train Demo.self [0] Demo.st0).2)) as Hfirst
    by (vm_compute; reflexivity).
  assert (train Demo.self [0; 1; 2] (train Demo.self [0] Demo.st0).2
          = (Ok (), (train Demo.self [0; 1; 2]
                       (train Demo.self [0] Demo.st0).2).2)) as Hsecond
    by (vm_compute; reflexivity).
  exact (retrain_forgets_first_training Demo.self [0] [0; 1; 2] Demo.st0 _ _
           Hfirst Hsecond).
Defined.

(** X14 on the trained example state: record 1 after [predict]. *)
Lemma predictions_stay_on_the_records_demo :
  Record.data_prediction (heap (predict Demo.self [0; 1; 2] Demo.st1).2 1)
    !! "Target"
  = Some {| rp_value := 8.5%float; rp_confidence := nan |}.
Proof.
  apply (predictions_stay_on_the_records Demo.self [0; 1; 2] Demo.st1
           Demo.fitted [8.5%float; 8.5%float; 8.5%float] 1 1 8.5%float).
  - reflexivity.
  - reflexivity.
  - compute_done.
  - vm_compute. reflexivity.
  - reflexivity.
Defined.
